(** * code_to_img.py: batch generation of barcode images from a CSV file

    A shallow embedding of [generate_barcodes_from_csv] and of the string
    operations it relies on, followed by the properties of the run that the
    specification states.

    Python strings are sequences of Unicode code points.  The classification
    of the ASCII range is fixed and written out here; what the interpreter's
    Unicode database says beyond ASCII is a parameter ([UnicodeDB]).  The
    operating system, the CSV reader and the python-barcode library are the
    [World] the function runs in. *)

From Stdlib Require Import String Ascii DecimalString.
From Stdlib Require DecimalZ.
From Stdlib Require Import ZArith NArith Bool Lia List.
Import ListNotations.

Set Implicit Arguments.

(** ** Strings *)

Module PyStr.

(** A [str] is a list of code points. *)
Definition Str := list N.

(** An ASCII literal of the source. *)
Definition lit (s : string) : Str := map N_of_ascii (list_ascii_of_string s).

Fixpoint eqb (a b : Str) : bool :=
  match a, b with
  | [], [] => true
  | x :: a', y :: b' => N.eqb x y && eqb a' b'
  | _, _ => false
  end.

(** What the Unicode database of the interpreter says about the code points
    above 127, and about the case mappings of strings that contain one (those
    are not character-wise: final sigma, characters that lower to two). *)
Class UnicodeDB := {
  u_isalpha : N -> bool;
  u_isdecimal : N -> bool;
  u_isdigit : N -> bool;
  u_isnumeric : N -> bool;
  u_isspace : N -> bool;
  u_lower : Str -> Str;
  u_upper : Str -> Str
}.

Definition between (lo hi c : N) : bool := N.leb lo c && N.leb c hi.
Definition is_ascii (c : N) : bool := N.ltb c 128.

Section Classes.
Context {db : UnicodeDB}.

Definition ascii_digit (c : N) : bool := between 48 57 c.
Definition ascii_letter (c : N) : bool := between 65 90 c || between 97 122 c.

Definition isalpha (c : N) : bool :=
  if is_ascii c then ascii_letter c else u_isalpha c.
Definition isdecimal (c : N) : bool :=
  if is_ascii c then ascii_digit c else u_isdecimal c.
Definition isdigit (c : N) : bool :=
  if is_ascii c then ascii_digit c else u_isdigit c.
Definition isnumeric (c : N) : bool :=
  if is_ascii c then ascii_digit c else u_isnumeric c.

(** [c.isalnum()] for one character: any of the four above. *)
Definition isalnum (c : N) : bool :=
  isalpha c || isdecimal c || isdigit c || isnumeric c.

(** Whitespace: in ASCII, TAB LF VT FF CR, FS GS RS US and the space. *)
Definition isspace (c : N) : bool :=
  if is_ascii c then between 9 13 c || between 28 32 c else u_isspace c.

(** [s.isdigit()]: at least one character, and all of them digits. *)
Definition str_isdigit (s : Str) : bool :=
  match s with
  | [] => false
  | _ => forallb isdigit s
  end.

Fixpoint lstrip (s : Str) : Str :=
  match s with
  | [] => []
  | c :: t => if isspace c then lstrip t else s
  end.

(** [s.rstrip()]: a character stays when something stays after it or when it
    is not whitespace. *)
Fixpoint rstrip (s : Str) : Str :=
  match s with
  | [] => []
  | c :: t =>
      match rstrip t with
      | [] => if isspace c then [] else [c]
      | r => c :: r
      end
  end.

Definition strip (s : Str) : Str := lstrip (rstrip s).

Definition ascii_lower (c : N) : N := if between 65 90 c then (c + 32)%N else c.
Definition ascii_upper (c : N) : N := if between 97 122 c then (c - 32)%N else c.

Definition lower (s : Str) : Str :=
  if forallb is_ascii s then map ascii_lower s else u_lower s.
Definition upper (s : Str) : Str :=
  if forallb is_ascii s then map ascii_upper s else u_upper s.

End Classes.

Fixpoint startswith (p s : Str) : bool :=
  match p, s with
  | [], _ => true
  | _ :: _, [] => false
  | x :: p', y :: s' => N.eqb x y && startswith p' s'
  end.

(** [s.replace(old, '')], scanning from the left; [skip] counts the
    characters of a match still to be dropped. *)
Fixpoint remove_from (old : Str) (skip : nat) (s : Str) : Str :=
  match s with
  | [] => []
  | c :: t =>
      match skip with
      | S k => remove_from old k t
      | O => if startswith old s then remove_from old (length old - 1) t
             else c :: remove_from old 0 t
      end
  end.

(** With an empty [old], replacing by the empty string changes nothing. *)
Definition remove_all (old s : Str) : Str :=
  match old with
  | [] => s
  | _ => remove_from old 0 s
  end.

(** [str(n)] for an integer. *)
Definition str_of_Z (n : Z) : Str := lit (NilZero.string_of_int (Z.to_int n)).

Definition slash : N := 47.

(** [os.path.join(a, b)] of posixpath. *)
Definition path_join (a b : Str) : Str :=
  if startswith [slash] b then b
  else match a with
       | [] => b
       | _ => if N.eqb (last a 0%N) slash then a ++ b else a ++ slash :: b
       end.

End PyStr.
Import PyStr.

(** ** The safe file name (lines 119 to 121) *)

Section SafeName.
Context {db : UnicodeDB}.

Definition hyphen : N := 45.
Definition underscore : N := 95.

(** The condition of the generator expression:
    [c.isalnum() or c in ('-', '_')]. *)
Definition keeps (c : N) : bool :=
  isalnum c || (N.eqb c hyphen || N.eqb c underscore).

(** ["".join(c for c in code_data if ...).rstrip()] *)
Definition sanitize (code_data : Str) : Str := rstrip (filter keeps code_data).

(** The name after the fallback of line 121. *)
Definition safe_filename (code_data : Str) (row_number : Z) : Str :=
  match sanitize code_data with
  | [] => lit "kod_wiersz_" ++ str_of_Z row_number
  | s => s
  end.

End SafeName.

(** ** Exceptions *)

Module Exc.

(** The classes the function names or meets, and any class derived from one
    of them. *)
Inductive ExcClass :=
| BaseException
| KeyboardInterrupt
| SystemExit
| Exception
| OSError
| FileNotFoundError
| LookupError
| IndexError
| BarcodeError
| BarcodeNotFoundError
| Derived (name : Str) (base : ExcClass).

Fixpoint class_eqb (c d : ExcClass) : bool :=
  match c, d with
  | BaseException, BaseException => true
  | KeyboardInterrupt, KeyboardInterrupt => true
  | SystemExit, SystemExit => true
  | Exception, Exception => true
  | OSError, OSError => true
  | FileNotFoundError, FileNotFoundError => true
  | LookupError, LookupError => true
  | IndexError, IndexError => true
  | BarcodeError, BarcodeError => true
  | BarcodeNotFoundError, BarcodeNotFoundError => true
  | Derived n b, Derived n' b' => PyStr.eqb n n' && class_eqb b b'
  | _, _ => false
  end.

(** The class and its ancestors, nearest first. *)
Fixpoint mro (c : ExcClass) : list ExcClass :=
  c :: match c with
       | BaseException => []
       | KeyboardInterrupt => [BaseException]
       | SystemExit => [BaseException]
       | Exception => [BaseException]
       | OSError => [Exception; BaseException]
       | FileNotFoundError => [OSError; Exception; BaseException]
       | LookupError => [Exception; BaseException]
       | IndexError => [LookupError; Exception; BaseException]
       | BarcodeError => [Exception; BaseException]
       | BarcodeNotFoundError => [BarcodeError; Exception; BaseException]
       | Derived _ b => mro b
       end.

Definition issubclass (c d : ExcClass) : bool := existsb (class_eqb d) (mro c).

(** A raised exception: its class and the text [str(e)] gives. *)
Record exn := mk_exn { exn_class : ExcClass; exn_text : Str }.

Definition isinstance (e : exn) (c : ExcClass) : bool := issubclass (exn_class e) c.

End Exc.
Import Exc.

(** ** Log records *)

Inductive Level := INFO | WARNING | ERROR.

(** One constructor for each logging call of the function, with the values
    its message is formatted from. *)
Inductive Message :=
| MsgStart (code_format : Str)                       (* line 50 *)
| MsgInputCsv (input_csv : Str)                      (* line 51 *)
| MsgOutputFolder (output_folder : Str)              (* line 52 *)
| MsgFolderReady (output_folder : Str)               (* line 57 *)
| MsgCannotCreateFolder (e : exn)                    (* line 59 *)
| MsgUsingClass (name : Str)                         (* line 65 *)
| MsgFormatNotFound (code_format : Str)              (* line 67 *)
| MsgImageFormatUnknown (img_format : Str)           (* line 73 *)
| MsgHeaderSkipped (header : list Str)               (* line 88 *)
| MsgCsvEmpty                                        (* line 90 *)
| MsgEmptyEntry (row_number : Z)                     (* line 101 *)
| MsgNotEan13 (row_number : Z) (code_data : Str)     (* line 108 *)
| MsgGenerated (code_data actual_filename : Str)     (* line 128 *)
| MsgCodeError (code_data : Str) (row_number : Z) (e : exn)  (* line 132 *)
| MsgTooFewColumns (row_number col_index : Z)        (* line 136 *)
| MsgRowError (row_number : Z) (e : exn)             (* line 140 *)
| MsgCsvNotFound (input_csv : Str)                   (* line 144 *)
| MsgCsvReadError (e : exn)                          (* line 146 *)
| MsgSummary (processed_count skipped_count : Z).    (* line 148 *)

Definition LogRecord := (Level * Message)%type.

(** The row number a record reports, when its message has one. *)
Definition reported_row (r : LogRecord) : option Z :=
  match snd r with
  | MsgEmptyEntry n | MsgNotEan13 n _ | MsgCodeError _ n _
  | MsgTooFewColumns n _ | MsgRowError n _ => Some n
  | _ => None
  end.

(** ** The world the function runs in *)

(** What a call into the world does: it returns or it raises. *)
Inductive Call (A : Type) :=
| Returns (a : A)
| Raises (e : exn).
Arguments Returns {A} a.
Arguments Raises {A} e.

(** What [next(reader)] gives for one line; the end of the list is
    [StopIteration]. *)
Inductive ReaderItem :=
| Yield (row : list Str)
| ReadFail (e : exn).

Section Run.
Context {db : UnicodeDB}.

(** The writer options: a dictionary the function hands on unread. *)
Variable Options : Type.

(** A barcode object: its [save(path, options)], which returns the name of
    the file it wrote. *)
Record Barcode := { bc_save : Str -> Options -> Call Str }.

(** A barcode class: its [__name__] and [cls(code, writer=ImageWriter())].
    The construction happens at most once for a data row, so the index of
    the row stands for the moment of the call. *)
Record BarcodeClass := {
  cls_name : Str;
  cls_new : nat -> Str -> Call Barcode
}.

Record World := {
  w_makedirs : Str -> Call unit;                     (* os.makedirs(p, exist_ok=True) *)
  w_get_barcode_class : Str -> Call BarcodeClass;    (* barcode.get_barcode_class *)
  w_open_csv : Str -> Call (list ReaderItem)         (* open, then csv.reader *)
}.

Record Config := {
  input_csv : Str;
  output_folder : Str;
  code_format : Str;
  img_format : Str;
  options : Options;
  col_index : Z;
  skip_header : bool
}.

(** ** State and control *)

(** The two counters, the records logged so far, and the images the
    renderer reported as written: the path asked for and the name returned. *)
Record RunState := {
  processed_count : Z;
  skipped_count : Z;
  log : list LogRecord;
  written : list (Str * Str)
}.

Inductive Res (A : Type) :=
| Ok (a : A) (st : RunState)
| Raise (e : exn) (st : RunState).
Arguments Ok {A} a st.
Arguments Raise {A} e st.

Definition M (A : Type) := RunState -> Res A.

Definition ret {A} (a : A) : M A := fun st => Ok a st.
Definition bind {A B} (m : M A) (k : A -> M B) : M B :=
  fun st => match m st with
            | Ok a st' => k a st'
            | Raise e st' => Raise e st'
            end.
Definition raise {A} (e : exn) : M A := fun st => Raise e st.

Notation "x <- m ;; k" := (bind m (fun x => k))
  (at level 61, m at next level, right associativity).
Notation "m ;;; k" := (bind m (fun _ => k))
  (at level 61, right associativity).

(** [try: m except cls as e: h e] *)
Definition try_except {A} (m : M A) (cls : ExcClass) (h : exn -> M A) : M A :=
  fun st => match m st with
            | Ok a st' => Ok a st'
            | Raise e st' => if isinstance e cls then h e st' else Raise e st'
            end.

Definition call {A} (c : Call A) : M A :=
  match c with
  | Returns a => ret a
  | Raises e => raise e
  end.

Definition logging (lv : Level) (m : Message) : M unit :=
  fun st => Ok tt {| processed_count := processed_count st;
                     skipped_count := skipped_count st;
                     log := log st ++ [(lv, m)];
                     written := written st |}.

(** [skipped_count += 1] *)
Definition incr_skipped : M unit :=
  fun st => Ok tt {| processed_count := processed_count st;
                     skipped_count := skipped_count st + 1;
                     log := log st;
                     written := written st |}.

(** [processed_count += 1] *)
Definition incr_processed : M unit :=
  fun st => Ok tt {| processed_count := processed_count st + 1;
                     skipped_count := skipped_count st;
                     log := log st;
                     written := written st |}.

(** The renderer returned from [save]: the image exists. *)
Definition record_written (path actual : Str) : M unit :=
  fun st => Ok tt {| processed_count := processed_count st;
                     skipped_count := skipped_count st;
                     log := log st;
                     written := written st ++ [(path, actual)] |}.

(** ** One row (lines 95 to 141) *)

(** [row[col_index]]: negative indices count from the end, anything outside
    raises IndexError. *)
Definition py_index (row : list Str) (i : Z) : Call Str :=
  let n := Z.of_nat (length row) in
  let j := if (i <? 0)%Z then (n + i)%Z else i in
  if ((0 <=? j) && (j <? n))%Z
  then match nth_error row (Z.to_nat j) with
       | Some f => Returns f
       | None => Raises (mk_exn IndexError (lit "list index out of range"))
       end
  else Raises (mk_exn IndexError (lit "list index out of range")).

(** Line 95. *)
Definition row_number (skip : bool) (i : nat) : Z :=
  (Z.of_nat i + (if skip then 2 else 1))%Z.

(** The condition of line 107. *)
Definition not_ean13 (code_data : Str) : bool :=
  negb (str_isdigit code_data) || negb (Nat.eqb (length code_data) 12).

Definition dot : N := 46.

(** The extension with its dot: [f'.{img_format.lower()}']. *)
Definition dot_ext (cfg : Config) : Str := dot :: lower (img_format cfg).

(** Lines 122 and 123. *)
Definition output_path (cfg : Config) (safe : Str) : Str :=
  path_join (output_folder cfg) (safe ++ dot_ext cfg).

(** The path handed to [save] (line 127). *)
Definition save_path (cfg : Config) (safe : Str) : Str :=
  remove_all (dot_ext cfg) (output_path cfg safe).

(** Lines 114 to 133: the rendering of one code, in its own try. *)
Definition render_code (cls : BarcodeClass) (cfg : Config) (i : nat)
    (code_data : Str) : M unit :=
  let rn := row_number (skip_header cfg) i in
  try_except
    (generated_barcode <- call (cls_new cls i code_data) ;;
     let path := save_path cfg (safe_filename code_data rn) in
     actual_filename <- call (bc_save generated_barcode path (options cfg)) ;;
     record_written path actual_filename ;;;
     logging INFO (MsgGenerated code_data actual_filename) ;;;
     incr_processed)
    Exception
    (fun e => logging ERROR (MsgCodeError code_data rn e) ;;; incr_skipped).

(** Lines 97 to 137: the body of the outer try of a row. *)
Definition row_body (cls : BarcodeClass) (cfg : Config) (i : nat)
    (row : list Str) : M unit :=
  let rn := row_number (skip_header cfg) i in
  if (Z.of_nat (length row) >? col_index cfg)%Z then
    field <- call (py_index row (col_index cfg)) ;;
    let code_data := strip field in
    match code_data with
    | [] => logging WARNING (MsgEmptyEntry rn) ;;; incr_skipped
    | _ =>
        if PyStr.eqb (lower (code_format cfg)) (lit "ean13") && not_ean13 code_data
        then logging WARNING (MsgNotEan13 rn code_data) ;;; incr_skipped
        else render_code cls cfg i code_data
    end
  else logging WARNING (MsgTooFewColumns rn (col_index cfg)) ;;; incr_skipped.

(** Lines 96 to 141. *)
Definition process_row (cls : BarcodeClass) (cfg : Config) (i : nat)
    (row : list Str) : M unit :=
  try_except (row_body cls cfg i row) Exception
    (fun e => logging ERROR (MsgRowError (row_number (skip_header cfg) i) e) ;;;
              incr_skipped).

(** The for loop of line 94 over what the reader still has; [i] is the
    index [enumerate] gives to the next row. *)
Fixpoint run_rows (cls : BarcodeClass) (cfg : Config) (i : nat)
    (items : list ReaderItem) : M unit :=
  match items with
  | [] => ret tt
  | ReadFail e :: _ => raise e
  | Yield row :: rest => process_row cls cfg i row ;;; run_rows cls cfg (S i) rest
  end.

(** ** The whole function *)

(** What a call of the function gives back. *)
Inductive PyValue :=
| PyNone
| PyTuple2 (a b : Z).

Inductive Exit :=
| Return (v : PyValue)
| Propagate (e : exn).

(** [counters] are the two local counters when the function ends, once line
    76 has bound them. *)
Record Outcome := {
  exit : Exit;
  counters : option (Z * Z);
  out_log : list LogRecord;
  out_written : list (Str * Str)
}.

Definition valid_image_formats : list Str :=
  [lit "PNG"; lit "JPEG"; lit "BMP"; lit "GIF"; lit "TIFF"; lit "SVG"].

(** The condition of line 72. *)
Definition image_format_unknown (img : Str) : bool :=
  negb (existsb (PyStr.eqb (upper img)) valid_image_formats)
  && negb (PyStr.eqb (lower img) (lit "svg")).

(** Lines 81 to 141, inside the with: true when the function returns from
    line 91. *)
Definition read_csv (w : World) (cls : BarcodeClass) (cfg : Config) : M bool :=
  items <- call (w_open_csv w (input_csv cfg)) ;;
  if skip_header cfg then
    match items with
    | [] => logging WARNING MsgCsvEmpty ;;; ret true
    | ReadFail e :: _ => raise e
    | Yield header :: rest =>
        logging INFO (MsgHeaderSkipped header) ;;;
        run_rows cls cfg 0 rest ;;; ret false
    end
  else run_rows cls cfg 0 items ;;; ret false.

(** Lines 80 to 146: the try around the file, with its two handlers in
    order. *)
Definition csv_block (w : World) (cls : BarcodeClass) (cfg : Config) : M bool :=
  fun st =>
    match read_csv w cls cfg st with
    | Ok b st' => Ok b st'
    | Raise e st' =>
        if isinstance e FileNotFoundError
        then (logging ERROR (MsgCsvNotFound (input_csv cfg)) ;;; ret false) st'
        else if isinstance e Exception
        then (logging ERROR (MsgCsvReadError e) ;;; ret false) st'
        else Raise e st'
    end.

Definition start_log (cfg : Config) : list LogRecord :=
  [(INFO, MsgStart (code_format cfg));
   (INFO, MsgInputCsv (input_csv cfg));
   (INFO, MsgOutputFolder (output_folder cfg))].

(** The log when line 76 is reached. *)
Definition setup_log (cls : BarcodeClass) (cfg : Config) : list LogRecord :=
  start_log cfg
  ++ [(INFO, MsgFolderReady (output_folder cfg)); (INFO, MsgUsingClass (cls_name cls))]
  ++ (if image_format_unknown (img_format cfg)
      then [(WARNING, MsgImageFormatUnknown (img_format cfg))] else []).

Definition leave (x : Exit) (st : RunState) : Outcome :=
  {| exit := x;
     counters := Some (processed_count st, skipped_count st);
     out_log := log st;
     out_written := written st |}.

Definition generate_barcodes_from_csv (w : World) (cfg : Config) : Outcome :=
  match w_makedirs w (output_folder cfg) with
  | Raises e =>
      if isinstance e OSError
      then {| exit := Return PyNone; counters := None;
              out_log := start_log cfg ++ [(ERROR, MsgCannotCreateFolder e)];
              out_written := [] |}
      else {| exit := Propagate e; counters := None;
              out_log := start_log cfg; out_written := [] |}
  | Returns _ =>
      let log1 := start_log cfg ++ [(INFO, MsgFolderReady (output_folder cfg))] in
      match w_get_barcode_class w (code_format cfg) with
      | Raises e =>
          if isinstance e BarcodeNotFoundError
          then {| exit := Return PyNone; counters := None;
                  out_log := log1 ++ [(ERROR, MsgFormatNotFound (code_format cfg))];
                  out_written := [] |}
          else {| exit := Propagate e; counters := None;
                  out_log := log1; out_written := [] |}
      | Returns cls =>
          let st0 := {| processed_count := 0; skipped_count := 0;
                        log := setup_log cls cfg; written := [] |} in
          match csv_block w cls cfg st0 with
          | Raise e st => leave (Propagate e) st
          | Ok true st => leave (Return PyNone) st
          | Ok false st =>
              match logging INFO (MsgSummary (processed_count st) (skipped_count st)) st with
              | Ok _ st' => leave (Return PyNone) st'
              | Raise e st' => leave (Propagate e) st'
              end
          end
      end
  end.

End Run.

Arguments Ok {A} a st.
Arguments Raise {A} e st.

(** ** Notions for the statements *)

Definition res_state {A} (r : Res A) : RunState :=
  match r with
  | Ok _ st => st
  | Raise _ st => st
  end.

Definition blank : RunState :=
  {| processed_count := 0; skipped_count := 0; log := []; written := [] |}.

Section Notions.
Context {db : UnicodeDB}.
Variable Options : Type.
Implicit Types (cls : BarcodeClass Options) (cfg : Config Options)
  (w : World Options) (row : list Str) (st : RunState) (r : LogRecord).

(** The characters of the fallback name: ASCII letters and digits, the
    hyphen and the underscore. *)
Definition plain (c : N) : bool :=
  ascii_digit c || ascii_letter c || (N.eqb c hyphen || N.eqb c underscore).

(** A skipped row: one more skipped, one record logged, nothing else. *)
Definition skipped_with (r : LogRecord) (st : RunState) : RunState :=
  {| processed_count := processed_count st;
     skipped_count := skipped_count st + 1;
     log := log st ++ [r];
     written := written st |}.

(** A processed row: one more processed, the image written, its record
    logged. *)
Definition processed_with (code path actual : Str) (st : RunState) : RunState :=
  {| processed_count := processed_count st + 1;
     skipped_count := skipped_count st;
     log := log st ++ [(INFO, MsgGenerated code actual)];
     written := written st ++ [(path, actual)] |}.

(** What the renderer answers for a code at row [i]: the name of the file
    written, or the exception of the construction or of [save]. *)
Definition rendering cls cfg (i : nat) (code : Str) : Call Str :=
  match cls_new cls i code with
  | Raises e => Raises e
  | Returns bc =>
      bc_save bc (save_path cfg (safe_filename code (row_number (skip_header cfg) i)))
        (options cfg)
  end.

(** The row when its field was extracted: lines 98 to 133. *)
Definition with_code cls cfg (i : nat) (code_data : Str) : M unit :=
  let rn := row_number (skip_header cfg) i in
  match code_data with
  | [] => bind (logging WARNING (MsgEmptyEntry rn)) (fun _ => incr_skipped)
  | _ =>
      if PyStr.eqb (lower (code_format cfg)) (lit "ean13") && not_ean13 code_data
      then bind (logging WARNING (MsgNotEan13 rn code_data)) (fun _ => incr_skipped)
      else render_code cls cfg i code_data
  end.

(** Exactly one of the two counters is one more, the other as it was. *)
Definition one_more (st st' : RunState) : Prop :=
  (processed_count st' = processed_count st + 1
   /\ skipped_count st' = skipped_count st)%Z
  \/ (processed_count st' = processed_count st
      /\ skipped_count st' = skipped_count st + 1)%Z.

(** The renderer raises errors only: nothing outside Exception, such as
    KeyboardInterrupt, comes out of the construction or of [save]. *)
Definition errors_only cls : Prop :=
  forall i code,
    (forall e, cls_new cls i code = Raises e -> isinstance e Exception = true)
    /\ (forall bc path opts e,
          cls_new cls i code = Returns bc ->
          bc_save bc path opts = Raises e -> isinstance e Exception = true).

Definition initial_state cls cfg : RunState :=
  {| processed_count := 0; skipped_count := 0;
     log := setup_log cls cfg; written := [] |}.

(** The records the processing of a row emits. *)
Definition row_log cls cfg (i : nat) row : list LogRecord :=
  log (res_state (process_row cls cfg i row blank)).

(** The rows after the header, when one is skipped. *)
Definition data_rows cfg (items : list ReaderItem) : list ReaderItem :=
  if skip_header cfg then tl items else items.

(** A record emitted for a data row of the file. *)
Definition from_row w cls cfg r : Prop :=
  exists items k row,
    w_open_csv w (input_csv cfg) = Returns items
    /\ nth_error (data_rows cfg items) k = Some (Yield row)
    /\ In r (row_log cls cfg k row).

End Notions.

(** ** A shop's file: the configuration of the script and worlds for it *)

Module Shop.

(** A database that knows of nothing beyond ASCII; the examples are ASCII. *)
Definition ascii_only : UnicodeDB :=
  {| u_isalpha := fun _ => false;
     u_isdecimal := fun _ => false;
     u_isdigit := fun _ => false;
     u_isnumeric := fun _ => false;
     u_isspace := fun _ => false;
     u_lower := fun s => s;
     u_upper := fun s => s |}.

(** The options as the script writes them: names and values. *)
Definition Opts : Type := list (Str * Str).

Definition writer_options : Opts :=
  [(lit "module_height", lit "15.0"); (lit "font_size", lit "10");
   (lit "text_distance", lit "5.0"); (lit "quiet_zone", lit "6.5");
   (lit "format", lit "PNG")].

(** Lines 11 to 33. *)
Definition script_cfg : Config Opts :=
  {| input_csv := lit "kody.csv";
     output_folder := lit "wygenerowane_kody_kreskowe";
     code_format := lit "ean13";
     img_format := lit "PNG";
     options := writer_options;
     col_index := 0;
     skip_header := true |}.

Definition with_folder (folder : Str) (cfg : Config Opts) : Config Opts :=
  {| input_csv := input_csv cfg; output_folder := folder;
     code_format := code_format cfg; img_format := img_format cfg;
     options := options cfg; col_index := col_index cfg;
     skip_header := skip_header cfg |}.

Definition with_format (fmt : Str) (cfg : Config Opts) : Config Opts :=
  {| input_csv := input_csv cfg; output_folder := output_folder cfg;
     code_format := fmt; img_format := img_format cfg;
     options := options cfg; col_index := col_index cfg;
     skip_header := skip_header cfg |}.

Definition with_column (col : Z) (cfg : Config Opts) : Config Opts :=
  {| input_csv := input_csv cfg; output_folder := output_folder cfg;
     code_format := code_format cfg; img_format := img_format cfg;
     options := options cfg; col_index := col;
     skip_header := skip_header cfg |}.

(** A writer that saves and adds its extension to the path. *)
Definition png_barcode : Barcode Opts :=
  {| bc_save := fun path _ => Returns (path ++ lit ".png") |}.

Definition ean13_class : BarcodeClass Opts :=
  {| cls_name := lit "EuropeanArticleNumber13";
     cls_new := fun _ _ => Returns png_barcode |}.

Definition illegal_character : exn :=
  mk_exn (Derived (lit "IllegalCharacterError") BarcodeError)
    (lit "Code39 can only contain uppercase letters").

Definition code39_class : BarcodeClass Opts :=
  {| cls_name := lit "Code39";
     cls_new := fun _ _ => Raises illegal_character |}.

Definition file_not_found : exn :=
  mk_exn FileNotFoundError (lit "No such file or directory: kody.csv").

Definition permission_denied : exn :=
  mk_exn (Derived (lit "PermissionError") OSError) (lit "Permission denied").

Definition barcode_not_found : exn :=
  mk_exn BarcodeNotFoundError (lit "The barcode ean14 is not known.").

Definition world_of (cls : BarcodeClass Opts) (file : Call (list ReaderItem))
    : World Opts :=
  {| w_makedirs := fun _ => Returns tt;
     w_get_barcode_class := fun _ => Returns cls;
     w_open_csv := fun _ => file |}.

(** A header and three rows, of which one is a valid code. *)
Definition three_rows : list ReaderItem :=
  [Yield [lit "code"]; Yield [lit "123456789012"]; Yield [lit "1234"];
   Yield [lit "abc"]].

Definition shop_world : World Opts := world_of ean13_class (Returns three_rows).
Definition empty_world : World Opts := world_of ean13_class (Returns []).
Definition no_file_world : World Opts := world_of ean13_class (Raises file_not_found).

Definition no_folder_world : World Opts :=
  {| w_makedirs := fun _ => Raises permission_denied;
     w_get_barcode_class := fun _ => Returns ean13_class;
     w_open_csv := fun _ => Returns three_rows |}.

Definition no_format_world : World Opts :=
  {| w_makedirs := fun _ => Returns tt;
     w_get_barcode_class := fun _ => Raises barcode_not_found;
     w_open_csv := fun _ => Returns three_rows |}.

(** The script with an output folder that has the extension in its name. *)
Definition dotted_cfg : Config Opts := with_folder (lit "out.png") script_cfg.

End Shop.

(** ** The script (lines 11 to 33 and 151 to 160) *)

Module Script.

Definition csv_file_path : Str := lit "kody.csv".
Definition output_dir : Str := lit "wygenerowane_kody_kreskowe".
Definition barcode_format : Str := lit "ean13".
Definition image_format : Str := lit "PNG".

Section Main.
Context {db : UnicodeDB}.

(** The dictionary of lines 23 to 29, its numbers as they are written. *)
Definition writer_options : list (Str * Str) :=
  [(lit "module_height", lit "15.0"); (lit "font_size", lit "10");
   (lit "text_distance", lit "5.0"); (lit "quiet_zone", lit "6.5");
   (lit "format", upper image_format)].

Definition csv_column_index : Z := 0.
Definition has_header : bool := true.

Definition main_cfg : Config (list (Str * Str)) :=
  {| input_csv := csv_file_path;
     output_folder := output_dir;
     code_format := barcode_format;
     img_format := image_format;
     options := writer_options;
     col_index := csv_column_index;
     skip_header := has_header |}.

(** The call under [if __name__ == "__main__"]. *)
Definition main (w : World (list (Str * Str))) : Outcome :=
  generate_barcodes_from_csv w main_cfg.

End Main.
End Script.

(** ** Notions for the properties of whole runs *)

(** The state with one more record in the log. *)
Definition logged (r : LogRecord) (st : RunState) : RunState :=
  {| processed_count := processed_count st;
     skipped_count := skipped_count st;
     log := log st ++ [r];
     written := written st |}.

Definition is_generated (r : LogRecord) : bool :=
  match snd r with
  | MsgGenerated _ _ => true
  | _ => false
  end.

Definition is_summary (r : LogRecord) : bool :=
  match snd r with
  | MsgSummary _ _ => true
  | _ => false
  end.

Definition is_row_error (r : LogRecord) : bool :=
  match snd r with
  | MsgRowError _ _ => true
  | _ => false
  end.

Definition reports_row (r : LogRecord) : bool :=
  match reported_row r with
  | Some _ => true
  | None => false
  end.

(** The records the file block logs itself, outside the rows. *)
Definition of_file_block (r : LogRecord) : bool :=
  match snd r with
  | MsgHeaderSkipped _ | MsgCsvEmpty | MsgCsvNotFound _ | MsgCsvReadError _ => true
  | _ => false
  end.

(** The counters agree with the images written and with the log. *)
Definition accounted (st : RunState) : Prop :=
  processed_count st = Z.of_nat (length (written st))
  /\ processed_count st = Z.of_nat (length (filter is_generated (log st)))
  /\ skipped_count st = Z.of_nat (length (filter reports_row (log st)))
  /\ filter is_summary (log st) = [].

Section RunNotions.
Context {db : UnicodeDB}.
Variable Options : Type.
Implicit Types (cls : BarcodeClass Options) (cfg : Config Options)
  (w : World Options) (row : list Str) (st : RunState).

(** The test of lines 106 and 107 lets the code through. *)
Definition passes_validation cfg (code : Str) : bool :=
  negb (PyStr.eqb (lower (code_format cfg)) (lit "ean13") && not_ean13 code).

(** [path] is what [save] is asked for a data row of the file whose code
    is not empty and passes the validation. *)
Definition written_for w cfg (path : Str) : Prop :=
  exists items k row field,
    w_open_csv w (input_csv cfg) = Returns items
    /\ nth_error (data_rows cfg items) k = Some (Yield row)
    /\ py_index row (col_index cfg) = Returns field
    /\ strip field <> []
    /\ passes_validation cfg (strip field) = true
    /\ path = save_path cfg
                (safe_filename (strip field) (row_number (skip_header cfg) k)).

(** The state in which the loop starts: after the header record, when a
    header is skipped. *)
Definition loop_start cls cfg (header : list Str) : RunState :=
  if skip_header cfg
  then logged (INFO, MsgHeaderSkipped header) (initial_state cls cfg)
  else initial_state cls cfg.

(** The record of the handlers of lines 143 to 146 for an exception. *)
Definition file_error_record cfg e : LogRecord :=
  if isinstance e FileNotFoundError
  then (ERROR, MsgCsvNotFound (input_csv cfg))
  else (ERROR, MsgCsvReadError e).

(** Every image of a state was asked for a validated code of a data row. *)
Definition written_ok w cfg st : Prop :=
  forall path actual, In (path, actual) (written st) -> written_for w cfg path.

End RunNotions.

(** ** Files and worlds that go wrong *)

Module Cases.
Import Shop.

Definition decode_error : exn :=
  mk_exn (Derived (lit "UnicodeDecodeError") (Derived (lit "ValueError") Exception))
    (lit "invalid start byte").

Definition null_byte : exn :=
  mk_exn (Derived (lit "ValueError") Exception) (lit "embedded null byte").

Definition interrupt : exn := mk_exn KeyboardInterrupt [].

(** A file with a header and a valid code, then a line that does not
    decode, then another valid code. *)
Definition broken_rows : list ReaderItem :=
  [Yield [lit "code"]; Yield [lit "123456789012"]; ReadFail decode_error;
   Yield [lit "999999999999"]].

Definition broken_world : World Opts := world_of ean13_class (Returns broken_rows).

Definition locked_world : World Opts :=
  world_of ean13_class (Raises permission_denied).

(** A folder name [os.makedirs] refuses with a ValueError. *)
Definition null_world : World Opts :=
  {| w_makedirs := fun _ => Raises null_byte;
     w_get_barcode_class := fun _ => Returns ean13_class;
     w_open_csv := fun _ => Returns three_rows |}.

End Cases.

(** * Properties *)

(** ** Strings *)

Section StringFacts.
Context {db : UnicodeDB}.

Lemma eqb_eq (a b : Str) : PyStr.eqb a b = true <-> a = b.
Proof.
  revert b; induction a as [|x a IH]; intros [|y b]; simpl;
    try (split; [discriminate | congruence]); try tauto.
  rewrite andb_true_iff, N.eqb_eq, IH. split.
  - intros [-> ->]; reflexivity.
  - intros E; injection E; auto.
Qed.

Lemma eqb_refl (a : Str) : PyStr.eqb a a = true.
Proof. apply eqb_eq; reflexivity. Qed.

(** [rstrip] yields the empty string exactly on all-whitespace input. *)
Lemma rstrip_nil (s : Str) : rstrip s = [] <-> forallb isspace s = true.
Proof.
  induction s as [|c t IH]; simpl; [tauto|].
  destruct (rstrip t) as [|r rs] eqn:E.
  - destruct (isspace c); simpl; [tauto|]. split; discriminate.
  - split; [discriminate|]. rewrite andb_true_iff. intros [_ H].
    apply IH in H. discriminate.
Qed.

Lemma rstrip_idempotent (s : Str) : rstrip (rstrip s) = rstrip s.
Proof.
  induction s as [|c t IH]; simpl; [reflexivity|].
  destruct (rstrip t) as [|r rs] eqn:E.
  - destruct (isspace c) eqn:Ec; simpl; [reflexivity|]. rewrite Ec; reflexivity.
  - change (rstrip (c :: r :: rs)) with
      (match rstrip (r :: rs) with
       | [] => if isspace c then [] else [c]
       | x => c :: x
       end).
    rewrite IH. reflexivity.
Qed.

(** What [rstrip] keeps is a part of what it was given. *)
Lemma rstrip_incl (s : Str) (c : N) : In c (rstrip s) -> In c s.
Proof.
  induction s as [|x t IH]; simpl; [tauto|].
  destruct (rstrip t) as [|r rs].
  - destruct (isspace x); simpl; tauto.
  - simpl. intros [H|H]; [auto|right; apply IH; exact H].
Qed.

Lemma rstrip_no_space (s : Str) :
  (forall c, In c s -> isspace c = false) -> rstrip s = s.
Proof.
  induction s as [|x t IH]; intros H; simpl; [reflexivity|].
  rewrite IH by (intros c Hc; apply H; right; exact Hc).
  destruct t; [|reflexivity].
  rewrite (H x) by (left; reflexivity). reflexivity.
Qed.

Lemma filter_all (f : N -> bool) (s : Str) :
  (forall c, In c s -> f c = true) -> filter f s = s.
Proof.
  induction s as [|x t IH]; intros H; simpl; [reflexivity|].
  rewrite (H x) by (left; reflexivity).
  rewrite IH by (intros c Hc; apply H; right; exact Hc). reflexivity.
Qed.

Lemma sanitize_keeps (s : Str) (c : N) : In c (sanitize s) -> keeps c = true.
Proof.
  intros H. apply rstrip_incl in H. apply filter_In in H. tauto.
Qed.

Lemma sanitize_fixed (s : Str) : sanitize (sanitize s) = sanitize s.
Proof.
  unfold sanitize at 1.
  rewrite filter_all by (apply sanitize_keeps).
  apply rstrip_idempotent.
Qed.

Lemma plain_ascii (c : N) : plain c = true -> is_ascii c = true.
Proof.
  unfold plain, ascii_digit, ascii_letter, between, is_ascii, hyphen, underscore.
  rewrite !orb_true_iff, !andb_true_iff, !N.leb_le, !N.eqb_eq, N.ltb_lt. lia.
Qed.

Lemma plain_keeps (c : N) : plain c = true -> keeps c = true.
Proof.
  intros H. pose proof (plain_ascii c H) as A. revert H.
  unfold plain, keeps, isalnum, isalpha, isdecimal, isdigit, isnumeric.
  rewrite A. destruct (ascii_digit c), (ascii_letter c); simpl; auto.
Qed.

Lemma plain_not_space (c : N) : plain c = true -> isspace c = false.
Proof.
  intros H. pose proof (plain_ascii c H) as A. revert H.
  unfold isspace. rewrite A. clear A.
  unfold plain, ascii_digit, ascii_letter, between, hyphen, underscore.
  rewrite !orb_true_iff, !andb_true_iff, !N.leb_le, !N.eqb_eq. intros H.
  apply orb_false_iff; split; apply andb_false_iff;
    rewrite !N.leb_gt; lia.
Qed.

Lemma plain_uint (d : Decimal.uint) (c : N) :
  In c (lit (NilEmpty.string_of_uint d)) -> plain c = true.
Proof.
  induction d; simpl; try tauto;
    (intros [H|H]; [subst c; reflexivity | apply IHd; exact H]).
Qed.

Lemma plain_str_of_Z (n : Z) (c : N) : In c (str_of_Z n) -> plain c = true.
Proof.
  unfold str_of_Z, NilZero.string_of_int, NilZero.string_of_uint.
  destruct (Z.to_int n) as [d|d].
  - destruct d; try apply plain_uint.
    simpl. intros [H|[]]; subst c; reflexivity.
  - destruct d;
      try (change (lit (String "-" ?s)) with (hyphen :: lit s));
      try (intros [H|H]; [subst c; reflexivity | revert H; apply plain_uint]).
    simpl. intros [H|[H|[]]]; subst c; reflexivity.
Qed.

Lemma plain_fallback (n : Z) (c : N) :
  In c (lit "kod_wiersz_" ++ str_of_Z n) -> plain c = true.
Proof.
  intros H. apply in_app_or in H. destruct H as [H|H].
  - simpl in H.
    repeat (destruct H as [H|H]; [subst c; reflexivity|]). destruct H.
  - revert H. apply plain_str_of_Z.
Qed.

Lemma sanitize_plain (s : Str) :
  (forall c, In c s -> plain c = true) -> sanitize s = s.
Proof.
  intros H. unfold sanitize.
  rewrite filter_all by (intros c Hc; apply plain_keeps, H, Hc).
  apply rstrip_no_space. intros c Hc. apply plain_not_space, H, Hc.
Qed.

(** The safe name is never empty and all its characters pass the filter of
    line 119. *)
Lemma safe_filename_keeps (code : Str) (n : Z) (c : N) :
  In c (safe_filename code n) -> keeps c = true.
Proof.
  unfold safe_filename. destruct (sanitize code) as [|x r] eqn:E.
  - intros H. apply plain_keeps. revert H. apply plain_fallback.
  - rewrite <- E. apply sanitize_keeps.
Qed.

Lemma safe_filename_not_nil (code : Str) (n : Z) : safe_filename code n <> [].
Proof.
  unfold safe_filename. destruct (sanitize code); discriminate.
Qed.

Lemma safe_filename_fixed (code : Str) (n : Z) :
  safe_filename (safe_filename code n) n = safe_filename code n.
Proof.
  assert (F : forall s, s <> [] -> sanitize s = s -> safe_filename s n = s).
  { intros s Hs E. unfold safe_filename. rewrite E.
    destruct s; [contradiction|reflexivity]. }
  apply F; [apply safe_filename_not_nil|].
  unfold safe_filename. destruct (sanitize code) as [|x r] eqn:E.
  - apply sanitize_plain, plain_fallback.
  - rewrite <- E. apply sanitize_fixed.
Qed.

(** C6. Sanitizing a file name twice gives what sanitizing it once gives:
    for the expression of line 119, and for the name after the fallback of
    line 121; and "590-123/456?789" becomes "590-123456789". *)
Theorem sanitize_idempotent (s : Str) :
  sanitize (sanitize s) = sanitize s
  /\ (forall n, safe_filename (safe_filename s n) n = safe_filename s n)
  /\ sanitize (lit "590-123/456?789") = lit "590-123456789".
Proof.
  split; [apply sanitize_fixed|]. split; [intros n; apply safe_filename_fixed|].
  vm_compute. reflexivity.
Qed.

End StringFacts.

(** ** Rows *)

Section RowFacts.
Context {db : UnicodeDB}.
Variable Options : Type.
Implicit Types (cls : BarcodeClass Options) (cfg : Config Options)
  (row : list Str) (st : RunState) (e : exn).

Lemma render_code_cases cls cfg i code st :
  render_code cls cfg i code st =
  let rn := row_number (skip_header cfg) i in
  match rendering cls cfg i code with
  | Returns actual =>
      Ok tt (processed_with code (save_path cfg (safe_filename code rn)) actual st)
  | Raises e =>
      if isinstance e Exception
      then Ok tt (skipped_with (ERROR, MsgCodeError code rn e) st)
      else Raise e st
  end.
Proof.
  unfold render_code, rendering, try_except, bind, call, ret, raise.
  destruct (cls_new cls i code) as [bc|e]; simpl.
  - destruct (bc_save bc _ (options cfg)) as [actual|e]; simpl.
    + destruct st; reflexivity.
    + destruct (isinstance e Exception); [destruct st|]; reflexivity.
  - destruct (isinstance e Exception); [destruct st|]; reflexivity.
Qed.

(** The handler of line 139 has nothing to catch from the rendering: the
    try of line 114 already caught what derives from Exception. *)
Lemma outer_try_render cls cfg i code st (h : exn -> M unit) :
  try_except (render_code cls cfg i code) Exception h st
  = render_code cls cfg i code st.
Proof.
  unfold try_except at 1. rewrite render_code_cases. simpl.
  destruct (rendering cls cfg i code) as [a|e]; [reflexivity|].
  destruct (isinstance e Exception) eqn:E; [reflexivity|].
  rewrite E. reflexivity.
Qed.

Lemma skip_step (lv : Level) (m : Message) st :
  bind (logging lv m) (fun _ => incr_skipped) st = Ok tt (skipped_with (lv, m) st).
Proof. destruct st; reflexivity. Qed.

Lemma try_skip_step (lv : Level) (m : Message) st (h : exn -> M unit) :
  try_except (bind (logging lv m) (fun _ => incr_skipped)) Exception h st
  = Ok tt (skipped_with (lv, m) st).
Proof. unfold try_except. rewrite skip_step. reflexivity. Qed.

Lemma with_code_cons cls cfg i (code : Str) st :
  code <> [] ->
  with_code cls cfg i code st =
  if PyStr.eqb (lower (code_format cfg)) (lit "ean13") && not_ean13 code
  then Ok tt (skipped_with (WARNING, MsgNotEan13 (row_number (skip_header cfg) i) code) st)
  else render_code cls cfg i code st.
Proof.
  intros Hne. unfold with_code. destruct code as [|c r]; [contradiction|].
  destruct (PyStr.eqb _ _ && not_ean13 _); [apply skip_step|reflexivity].
Qed.

Lemma row_body_cases cls cfg i row st :
  row_body cls cfg i row st =
  if (Z.of_nat (length row) >? col_index cfg)%Z
  then match py_index row (col_index cfg) with
       | Returns field => with_code cls cfg i (strip field) st
       | Raises e => Raise e st
       end
  else Ok tt (skipped_with
                (WARNING, MsgTooFewColumns (row_number (skip_header cfg) i) (col_index cfg))
                st).
Proof.
  unfold row_body. destruct (Z.of_nat (length row) >? col_index cfg)%Z.
  - unfold bind at 1, call. destruct (py_index row (col_index cfg)); reflexivity.
  - apply skip_step.
Qed.

(** An exception leaves the body of a row with the state the row found. *)
Lemma row_body_raise cls cfg i row st e st' :
  row_body cls cfg i row st = Raise e st' -> st' = st.
Proof.
  rewrite row_body_cases.
  destruct (Z.of_nat (length row) >? col_index cfg)%Z; [|discriminate].
  destruct (py_index row (col_index cfg)) as [field|e0]; [|congruence].
  unfold with_code. destruct (strip field) as [|c code'].
  - rewrite skip_step. discriminate.
  - destruct (PyStr.eqb _ _ && not_ean13 _).
    + rewrite skip_step. discriminate.
    + rewrite render_code_cases. simpl.
      destruct (rendering cls cfg i (c :: code')); [discriminate|].
      destruct (isinstance _ Exception); [discriminate|congruence].
Qed.

Lemma process_row_cases cls cfg i row st :
  process_row cls cfg i row st =
  match row_body cls cfg i row st with
  | Ok a st' => Ok a st'
  | Raise e st' =>
      if isinstance e Exception
      then Ok tt (skipped_with (ERROR, MsgRowError (row_number (skip_header cfg) i) e) st')
      else Raise e st'
  end.
Proof.
  unfold process_row, try_except.
  destruct (row_body cls cfg i row st) as [a st'|e st']; [reflexivity|].
  destruct (isinstance e Exception); [apply skip_step|reflexivity].
Qed.

Lemma process_row_with_code cls cfg i row field st :
  (Z.of_nat (length row) > col_index cfg)%Z ->
  py_index row (col_index cfg) = Returns field ->
  process_row cls cfg i row st =
  match with_code cls cfg i (strip field) st with
  | Ok a st' => Ok a st'
  | Raise e st' =>
      if isinstance e Exception
      then Ok tt (skipped_with (ERROR, MsgRowError (row_number (skip_header cfg) i) e) st')
      else Raise e st'
  end.
Proof.
  intros Hlen Hf. rewrite process_row_cases, row_body_cases, Hf.
  apply Z.gtb_gt in Hlen. rewrite Hlen. reflexivity.
Qed.

Lemma str_isdigit_all (code : Str) :
  code <> [] ->
  (str_isdigit code = true <-> forall c, In c code -> isdigit c = true).
Proof.
  intros Hne. unfold str_isdigit. destruct code as [|x r]; [contradiction|].
  apply forallb_forall.
Qed.

(** The test of line 107 in words. *)
Lemma not_ean13_iff (code : Str) :
  code <> [] ->
  (not_ean13 code = true <->
   ~ (forall c, In c code -> isdigit c = true) \/ length code <> 12).
Proof.
  intros Hne. unfold not_ean13.
  rewrite orb_true_iff, !negb_true_iff, Nat.eqb_neq.
  rewrite <- (str_isdigit_all Hne).
  destruct (str_isdigit code); intuition congruence.
Qed.

(** C1. Under the format "ean13" (in any letter case), a row whose trimmed
    code is not empty and is not made of digits only, or is not 12 long, is
    skipped: the skipped counter grows by one, a warning is logged, and the
    processed counter and the written images stay as they were.  A code of
    exactly 12 digits reaches the rendering, and is counted as processed
    when the renderer writes its image. *)
Theorem ean13_validation cls cfg i row field st :
  lower (code_format cfg) = lit "ean13" ->
  (Z.of_nat (length row) > col_index cfg)%Z ->
  py_index row (col_index cfg) = Returns field ->
  strip field <> [] ->
  let code := strip field in
  let rn := row_number (skip_header cfg) i in
  ((~ (forall c, In c code -> isdigit c = true) \/ length code <> 12) ->
   process_row cls cfg i row st
   = Ok tt (skipped_with (WARNING, MsgNotEan13 rn code) st))
  /\ ((forall c, In c code -> isdigit c = true) -> length code = 12 ->
      process_row cls cfg i row st = render_code cls cfg i code st
      /\ forall actual, rendering cls cfg i code = Returns actual ->
         process_row cls cfg i row st
         = Ok tt (processed_with code (save_path cfg (safe_filename code rn)) actual st)).
Proof.
  intros Hfmt Hlen Hf Hne code rn.
  rewrite (process_row_with_code cls cfg i row st Hlen Hf).
  rewrite (with_code_cons cls cfg i st Hne). fold code rn.
  rewrite Hfmt, eqb_refl. simpl andb.
  split.
  - intros Hbad. apply (not_ean13_iff Hne) in Hbad. fold code in Hbad.
    rewrite Hbad. reflexivity.
  - intros Hdig H12.
    assert (Hok : not_ean13 code = false).
    { destruct (not_ean13 code) eqn:E; [|reflexivity].
      apply (not_ean13_iff Hne) in E. fold code in E. tauto. }
    rewrite Hok, render_code_cases. fold rn.
    destruct (rendering cls cfg i code) as [a|e] eqn:Hr; simpl.
    + split; [reflexivity|]. intros actual Ha. congruence.
    + destruct (isinstance e Exception) eqn:E; [|rewrite E];
        (split; [reflexivity|discriminate]).
Qed.

Lemma strip_nil (s : Str) : forallb isspace s = true -> strip s = [].
Proof.
  intros H. unfold strip. apply rstrip_nil in H. rewrite H. reflexivity.
Qed.

(** C7. A row whose field in the target column is empty once trimmed, as
    the field "   " is, is skipped: the skipped counter grows by one, a
    warning is logged, nothing is written and nothing else changes. *)
Theorem empty_code_skipped cls cfg i row field st :
  (Z.of_nat (length row) > col_index cfg)%Z ->
  py_index row (col_index cfg) = Returns field ->
  strip field = [] ->
  process_row cls cfg i row st
  = Ok tt (skipped_with (WARNING, MsgEmptyEntry (row_number (skip_header cfg) i)) st)
  /\ strip (lit "   ") = [].
Proof.
  intros Hlen Hf He. split; [|apply strip_nil; reflexivity].
  rewrite (process_row_with_code cls cfg i row st Hlen Hf), He.
  unfold with_code. rewrite skip_step. reflexivity.
Qed.

(** C8. A row with too few fields for the target column is skipped by the
    test of line 97: the body of the row ends normally in the branch of line
    136, without indexing the row, so there is no exception for the handler
    of line 139, and the skipped counter grows by one. *)
Theorem short_row_skipped cls cfg i row st :
  (Z.of_nat (length row) <= col_index cfg)%Z ->
  let st' := skipped_with
               (WARNING, MsgTooFewColumns (row_number (skip_header cfg) i) (col_index cfg))
               st in
  row_body cls cfg i row st = Ok tt st'
  /\ process_row cls cfg i row st = Ok tt st'.
Proof.
  intros Hlen st'.
  assert (B : row_body cls cfg i row st = Ok tt st').
  { rewrite row_body_cases.
    destruct (Z.of_nat (length row) >? col_index cfg)%Z eqn:E; [|reflexivity].
    apply Z.gtb_gt in E. lia. }
  split; [exact B|]. rewrite process_row_cases, B. reflexivity.
Qed.

(** With a negative index the test of line 97 always passes; on a row too
    short for it the access raises, and the handler of line 139 skips the
    row. *)
Lemma negative_index_skipped cls cfg i st :
  col_index cfg = (-1)%Z ->
  process_row cls cfg i [] st
  = Ok tt (skipped_with
             (ERROR, MsgRowError (row_number (skip_header cfg) i)
                       (mk_exn IndexError (lit "list index out of range"))) st).
Proof.
  intros H. rewrite process_row_cases, row_body_cases, H. reflexivity.
Qed.

(** Nothing that derives from Exception leaves the processing of a row. *)
Lemma process_row_raise cls cfg i row st e st' :
  process_row cls cfg i row st = Raise e st' -> isinstance e Exception = false.
Proof.
  rewrite process_row_cases.
  destruct (row_body cls cfg i row st) as [a s|e0 s]; [discriminate|].
  destruct (isinstance e0 Exception) eqn:E; [discriminate|].
  intros H; injection H as <- _. exact E.
Qed.

(** C3. An error (an exception deriving from Exception) raised while a row
    is processed does not leave the processing of the row.  Raised by the
    renderer, when the barcode is built or saved, it is caught by the
    handler of line 131; raised elsewhere in the row, by that of line 139.
    Either way the skipped counter grows by one, one error record is logged,
    nothing else changes, and the loop goes on with the next row. *)
Theorem row_errors_caught cls cfg i row rest st e :
  isinstance e Exception = true ->
  let rn := row_number (skip_header cfg) i in
  (forall e' st', process_row cls cfg i row st = Raise e' st' ->
                  isinstance e' Exception = false)
  /\ (forall field,
        (Z.of_nat (length row) > col_index cfg)%Z ->
        py_index row (col_index cfg) = Returns field ->
        strip field <> [] ->
        PyStr.eqb (lower (code_format cfg)) (lit "ean13") && not_ean13 (strip field) = false ->
        rendering cls cfg i (strip field) = Raises e ->
        process_row cls cfg i row st
        = Ok tt (skipped_with (ERROR, MsgCodeError (strip field) rn e) st))
  /\ (forall st', row_body cls cfg i row st = Raise e st' ->
        process_row cls cfg i row st
        = Ok tt (skipped_with (ERROR, MsgRowError rn e) st))
  /\ (forall st', process_row cls cfg i row st = Ok tt st' ->
        run_rows cls cfg i (Yield row :: rest) st = run_rows cls cfg (S i) rest st').
Proof.
  intros He rn. split; [|split; [|split]].
  - intros e' st'. apply process_row_raise.
  - intros field Hlen Hf Hne Hv Hr.
    rewrite (process_row_with_code cls cfg i row st Hlen Hf).
    rewrite (with_code_cons cls cfg i st Hne), Hv, render_code_cases, Hr.
    simpl. rewrite He. reflexivity.
  - intros st' Hb. rewrite process_row_cases, Hb, He.
    apply row_body_raise in Hb. subst st'. reflexivity.
  - intros st' Hp. simpl. unfold bind. rewrite Hp. reflexivity.
Qed.

End RowFacts.

(** ** Counters *)

Section CounterFacts.
Context {db : UnicodeDB}.
Variable Options : Type.
Implicit Types (cls : BarcodeClass Options) (cfg : Config Options)
  (w : World Options) (row : list Str) (st : RunState) (e : exn).

Lemma rendering_errors_only cls cfg i code e :
  errors_only cls ->
  rendering cls cfg i code = Raises e -> isinstance e Exception = true.
Proof.
  intros H. destruct (H i code) as [H1 H2]. unfold rendering.
  destruct (cls_new cls i code) as [bc|e0] eqn:E.
  - intros Hs. exact (H2 bc _ _ e eq_refl Hs).
  - intros Hs. injection Hs as ->. apply H1. reflexivity.
Qed.

(** A row either ends with one counter incremented, or is interrupted, by
    something of the renderer that is no Exception, in the state it found. *)
Lemma process_row_result cls cfg i row st :
  (exists st', process_row cls cfg i row st = Ok tt st' /\ one_more st st')
  \/ (exists e code, process_row cls cfg i row st = Raise e st
                     /\ isinstance e Exception = false
                     /\ rendering cls cfg i code = Raises e).
Proof.
  rewrite process_row_cases, row_body_cases.
  destruct (Z.of_nat (length row) >? col_index cfg)%Z;
    [|left; eexists; split; [reflexivity|right; simpl; lia]].
  destruct (py_index row (col_index cfg)) as [field|e0] eqn:Hf.
  - destruct (strip field) as [|c r] eqn:Hs.
    + unfold with_code. rewrite skip_step.
      left; eexists; split; [reflexivity|right; simpl; lia].
    + rewrite with_code_cons by discriminate.
      destruct (PyStr.eqb _ _ && not_ean13 _);
        [left; eexists; split; [reflexivity|right; simpl; lia]|].
      rewrite render_code_cases. simpl.
      destruct (rendering cls cfg i (c :: r)) as [a|e] eqn:Hr.
      * left; eexists; split; [reflexivity|left; simpl; lia].
      * destruct (isinstance e Exception) eqn:E.
        -- left; eexists; split; [reflexivity|right; simpl; lia].
        -- rewrite E. right. exists e, (c :: r). auto.
  - revert Hf. unfold py_index.
    destruct ((0 <=? _) && _)%Z; [destruct (nth_error row _)|];
      try discriminate; intros H; injection H as <-;
      left; eexists; (split; [reflexivity|right; simpl; lia]).
Qed.

Lemma process_row_total cls cfg i row st :
  errors_only cls ->
  exists st', process_row cls cfg i row st = Ok tt st' /\ one_more st st'.
Proof.
  intros H. destruct (process_row_result cls cfg i row st) as [?|(e & code & _ & E & R)];
    [assumption|].
  rewrite (@rendering_errors_only cls cfg i code e H R) in E. discriminate.
Qed.

(** Whatever the renderer does, no counter decreases in a row. *)
Lemma process_row_monotone cls cfg i row st :
  let st' := res_state (process_row cls cfg i row st) in
  (processed_count st <= processed_count st'
   /\ skipped_count st <= skipped_count st')%Z.
Proof.
  destruct (process_row_result cls cfg i row st)
    as [(st' & -> & [[A B]|[A B]])|(e & code & -> & _)]; simpl; lia.
Qed.

Lemma run_rows_monotone cls cfg (items : list ReaderItem) :
  forall i st,
    let st' := res_state (run_rows cls cfg i items st) in
    (processed_count st <= processed_count st'
     /\ skipped_count st <= skipped_count st')%Z.
Proof.
  induction items as [|[row|e] rest IH]; intros i st; simpl; try lia.
  unfold bind. pose proof (process_row_monotone cls cfg i row st) as Hm.
  destruct (process_row cls cfg i row st) as [a s|e s]; simpl in *; [|exact Hm].
  specialize (IH (S i) s). simpl in IH. lia.
Qed.

Lemma run_rows_total cls cfg (rows : list (list Str)) :
  errors_only cls ->
  forall i st, exists st',
    run_rows cls cfg i (map Yield rows) st = Ok tt st'
    /\ (processed_count st' + skipped_count st'
        = processed_count st + skipped_count st + Z.of_nat (length rows))%Z
    /\ (processed_count st <= processed_count st')%Z
    /\ (skipped_count st <= skipped_count st')%Z.
Proof.
  intros H. induction rows as [|row rows IH]; intros i st.
  - exists st. simpl. repeat split; try reflexivity; lia.
  - destruct (process_row_total cfg i row st H) as (s & Hp & Hs).
    destruct (IH (S i) s) as (st' & Hr & Hsum & Hp' & Hs').
    exists st'. split.
    + simpl. unfold bind. rewrite Hp. exact Hr.
    + change (length (row :: rows)) with (S (length rows)).
      destruct Hs as [[A B]|[A B]]; lia.
Qed.

(** The function once the folder and the barcode class are there. *)
Lemma generate_after_setup w cfg cls :
  w_makedirs w (output_folder cfg) = Returns tt ->
  w_get_barcode_class w (code_format cfg) = Returns cls ->
  generate_barcodes_from_csv w cfg =
  match csv_block w cls cfg (initial_state cls cfg) with
  | Raise e st => leave (Propagate e) st
  | Ok true st => leave (Return PyNone) st
  | Ok false st =>
      leave (Return PyNone)
        {| processed_count := processed_count st;
           skipped_count := skipped_count st;
           log := log st ++ [(INFO, MsgSummary (processed_count st) (skipped_count st))];
           written := written st |}
  end.
Proof.
  intros Hm Hc. unfold generate_barcodes_from_csv. rewrite Hm, Hc. reflexivity.
Qed.

(** The file block when the reader gives a header, if one is skipped, and
    then rows only, and the rows all end normally. *)
Lemma csv_block_rows w cfg cls (header : list Str) (rows : list (list Str)) st st' :
  w_open_csv w (input_csv cfg)
  = Returns ((if skip_header cfg then [Yield header] else []) ++ map Yield rows) ->
  run_rows cls cfg 0 (map Yield rows)
    (if skip_header cfg
     then {| processed_count := processed_count st;
             skipped_count := skipped_count st;
             log := log st ++ [(INFO, MsgHeaderSkipped header)];
             written := written st |}
     else st) = Ok tt st' ->
  csv_block w cls cfg st = Ok false st'.
Proof.
  intros Ho Hr. unfold csv_block, read_csv, bind at 1. rewrite Ho.
  unfold call, ret at 1. revert Hr. destruct (skip_header cfg); intros Hr.
  - change ([Yield header] ++ map Yield rows) with (Yield header :: map Yield rows).
    cbv beta iota. unfold bind, logging at 1. rewrite Hr. reflexivity.
  - change ([] ++ map Yield rows) with (map Yield rows).
    unfold bind. rewrite Hr. reflexivity.
Qed.

(** C10. When the renderer raises errors only, every row ends with exactly
    one of the two counters one higher and the other unchanged; the loop
    over n rows ends with processed + skipped higher by n, neither counter
    lower than before; and a run over a file of n data rows ends with
    counters that add up to n and are not negative. *)
Theorem counter_conservation cls cfg :
  errors_only cls ->
  (forall i row st, exists st',
      process_row cls cfg i row st = Ok tt st' /\ one_more st st')
  /\ (forall (rows : list (list Str)) i st, exists st',
        run_rows cls cfg i (map Yield rows) st = Ok tt st'
        /\ (processed_count st' + skipped_count st'
            = processed_count st + skipped_count st + Z.of_nat (length rows))%Z
        /\ (processed_count st <= processed_count st')%Z
        /\ (skipped_count st <= skipped_count st')%Z)
  /\ (forall w (header : list Str) (rows : list (list Str)),
        w_makedirs w (output_folder cfg) = Returns tt ->
        w_get_barcode_class w (code_format cfg) = Returns cls ->
        w_open_csv w (input_csv cfg)
        = Returns ((if skip_header cfg then [Yield header] else []) ++ map Yield rows) ->
        exists p s,
          counters (generate_barcodes_from_csv w cfg) = Some (p, s)
          /\ (p + s = Z.of_nat (length rows))%Z /\ (0 <= p)%Z /\ (0 <= s)%Z).
Proof.
  intros H. split; [|split].
  - intros i row st. apply process_row_total, H.
  - intros rows i st. apply run_rows_total, H.
  - intros w header rows Hm Hc Ho.
    rewrite (generate_after_setup w cfg Hm Hc).
    match type of Ho with
    | _ = Returns (?h ++ _) => set (hd := h) in *
    end.
    set (st0 := initial_state cls cfg).
    set (st1 := if skip_header cfg
                then {| processed_count := processed_count st0;
                        skipped_count := skipped_count st0;
                        log := log st0 ++ [(INFO, MsgHeaderSkipped header)];
                        written := written st0 |}
                else st0).
    destruct (run_rows_total cfg rows H 0 st1) as (st' & Hr & Hsum & Hp & Hs).
    rewrite (csv_block_rows w cfg cls header rows st0 Ho Hr).
    exists (processed_count st'), (skipped_count st'). simpl.
    assert (Z0 : processed_count st1 = 0%Z /\ skipped_count st1 = 0%Z)
      by (unfold st1; destruct (skip_header cfg); split; reflexivity).
    destruct Z0 as [Zp Zs]. rewrite Zp, Zs in *.
    repeat split; lia.
Qed.

End CounterFacts.

(** ** Row numbers in the log *)

Section LogFacts.
Context {db : UnicodeDB}.
Variable Options : Type.
Implicit Types (cls : BarcodeClass Options) (cfg : Config Options)
  (w : World Options) (row : list Str) (st : RunState) (e : exn) (r : LogRecord).

Lemma with_code_log cls cfg i (code : Str) st :
  log (res_state (with_code cls cfg i code st))
  = log st ++ log (res_state (with_code cls cfg i code blank)).
Proof.
  destruct code as [|c code'].
  - unfold with_code. rewrite !skip_step. reflexivity.
  - rewrite !with_code_cons by discriminate.
    destruct (PyStr.eqb _ _ && not_ean13 _); [reflexivity|].
    rewrite !render_code_cases. simpl.
    destruct (rendering cls cfg i (c :: code')) as [a|e]; [reflexivity|].
    destruct (isinstance e Exception); simpl; [reflexivity|].
    symmetry; apply app_nil_r.
Qed.

Lemma with_code_raise cls cfg i (code : Str) st e st' :
  with_code cls cfg i code st = Raise e st' ->
  st' = st /\ isinstance e Exception = false
  /\ with_code cls cfg i code blank = Raise e blank.
Proof.
  destruct code as [|c code'].
  - unfold with_code. rewrite skip_step. discriminate.
  - rewrite !with_code_cons by discriminate.
    destruct (PyStr.eqb _ _ && not_ean13 _); [discriminate|].
    rewrite !render_code_cases. simpl.
    destruct (rendering cls cfg i (c :: code')) as [a|e0]; [discriminate|].
    destruct (isinstance e0 Exception) eqn:E; [discriminate|].
    intros H; injection H as <- <-. auto.
Qed.

Lemma process_row_log cls cfg i row st :
  log (res_state (process_row cls cfg i row st)) = log st ++ row_log cls cfg i row.
Proof.
  unfold row_log. rewrite !process_row_cases, !row_body_cases.
  destruct (Z.of_nat (length row) >? col_index cfg)%Z; [|reflexivity].
  destruct (py_index row (col_index cfg)) as [field|e].
  - pose proof (with_code_log cls cfg i (strip field) st) as L.
    destruct (with_code cls cfg i (strip field) st) as [a s|e s] eqn:W.
    + destruct (with_code cls cfg i (strip field) blank) as [a' s'|e' s'] eqn:W'.
      * exact L.
      * apply with_code_raise in W'. destruct W' as (-> & -> & _). exact L.
    + apply with_code_raise in W. destruct W as (-> & E & ->).
      rewrite E. simpl. symmetry; apply app_nil_r.
  - destruct (isinstance e Exception); simpl; [reflexivity|].
    symmetry; apply app_nil_r.
Qed.

(** Every record of a row that reports a row number reports the number of
    line 95. *)
Lemma row_log_number cls cfg i row r (n : Z) :
  In r (row_log cls cfg i row) ->
  reported_row r = Some n ->
  n = row_number (skip_header cfg) i.
Proof.
  assert (One : forall lv m,
             In r [(lv, m)] -> reported_row r = Some n ->
             reported_row (lv, m) = Some (row_number (skip_header cfg) i) ->
             n = row_number (skip_header cfg) i).
  { intros lv m [<-|[]] H1 H2. congruence. }
  unfold row_log. rewrite process_row_cases, row_body_cases.
  destruct (Z.of_nat (length row) >? col_index cfg)%Z;
    [|intros H1 H2; apply (One _ _ H1 H2); reflexivity].
  destruct (py_index row (col_index cfg)) as [field|e].
  - destruct (strip field) as [|c code'].
    + unfold with_code. rewrite skip_step.
      intros H1 H2; apply (One _ _ H1 H2); reflexivity.
    + rewrite with_code_cons by discriminate.
      destruct (PyStr.eqb _ _ && not_ean13 _);
        [intros H1 H2; apply (One _ _ H1 H2); reflexivity|].
      rewrite render_code_cases. cbv zeta.
      destruct (rendering cls cfg i (c :: code')) as [a|e].
      * intros [<-|[]] H. discriminate H.
      * destruct (isinstance e Exception) eqn:E; [|rewrite E; intros []].
        intros H1 H2; apply (One _ _ H1 H2); reflexivity.
  - destruct (isinstance e Exception); [|intros []].
    intros H1 H2; apply (One _ _ H1 H2); reflexivity.
Qed.

(** What the loop adds to the log comes from rows of the reader, each
    processed under its index. *)
Lemma run_rows_log cls cfg (items : list ReaderItem) :
  forall i0 st, exists new,
    log (res_state (run_rows cls cfg i0 items st)) = log st ++ new
    /\ forall r, In r new ->
         exists k row, nth_error items k = Some (Yield row)
                       /\ In r (row_log cls cfg (i0 + k) row).
Proof.
  induction items as [|[row|e] rest IH]; intros i0 st.
  - exists []. simpl. rewrite app_nil_r. split; [reflexivity|intros r []].
  - pose proof (process_row_log cls cfg i0 row st) as L.
    simpl run_rows. unfold bind.
    destruct (process_row cls cfg i0 row st) as [a s|e s].
    + destruct (IH (S i0) s) as (new & Hl & Hn).
      exists (row_log cls cfg i0 row ++ new). split.
      * rewrite Hl. simpl in L. rewrite L. symmetry; apply app_assoc.
      * intros r Hr. apply in_app_or in Hr. destruct Hr as [Hr|Hr].
        -- exists 0%nat, row. rewrite Nat.add_0_r. auto.
        -- destruct (Hn r Hr) as (k & row' & Hk & Hin).
           exists (S k), row'. rewrite Nat.add_succ_r. auto.
    + exists (row_log cls cfg i0 row). split; [exact L|].
      intros r Hr. exists 0%nat, row. rewrite Nat.add_0_r. auto.
  - exists []. simpl. rewrite app_nil_r. split; [reflexivity|intros r []].
Qed.

Lemma read_csv_log w cls cfg st :
  exists new,
    log (res_state (read_csv w cls cfg st)) = log st ++ new
    /\ forall r, In r new -> reported_row r = None \/ from_row w cls cfg r.
Proof.
  unfold read_csv, bind at 1, call.
  destruct (w_open_csv w (input_csv cfg)) as [items|e] eqn:Ho;
    [|exists []; simpl; rewrite app_nil_r; split; [reflexivity|intros r []]].
  unfold ret at 1. destruct (skip_header cfg) eqn:Hs.
  - destruct items as [|[header|e] rest].
    + exists [(WARNING, MsgCsvEmpty)]. split; [reflexivity|].
      intros r [<-|[]]. left; reflexivity.
    + unfold bind at 1, logging at 1.
      match goal with
      | |- context [bind (run_rows cls cfg 0 rest) _ ?s] => set (st1 := s)
      end.
      destruct (run_rows_log cls cfg rest 0 st1) as (new & Hl & Hn).
      exists ((INFO, MsgHeaderSkipped header) :: new). split.
      * unfold bind.
        destruct (run_rows cls cfg 0 rest st1) as [a s|e s]; simpl in *;
          rewrite Hl; unfold st1; simpl; rewrite <- app_assoc; reflexivity.
      * intros r [<-|Hr]; [left; reflexivity|]. right.
        destruct (Hn r Hr) as (k & row & Hk & Hin).
        exists (Yield header :: rest), k, row. unfold data_rows. rewrite Hs. auto.
    + exists []. simpl. rewrite app_nil_r. split; [reflexivity|intros r []].
  - destruct (run_rows_log cls cfg items 0 st) as (new & Hl & Hn).
    exists new. split.
    + unfold bind. destruct (run_rows cls cfg 0 items st) as [a s|e s]; exact Hl.
    + intros r Hr. right. destruct (Hn r Hr) as (k & row & Hk & Hin).
      exists items, k, row. unfold data_rows. rewrite Hs. auto.
Qed.

Lemma csv_block_log w cls cfg st :
  exists new,
    log (res_state (csv_block w cls cfg st)) = log st ++ new
    /\ forall r, In r new -> reported_row r = None \/ from_row w cls cfg r.
Proof.
  destruct (read_csv_log w cls cfg st) as (new & Hl & Hn).
  unfold csv_block.
  destruct (read_csv w cls cfg st) as [b s|e s]; simpl in Hl.
  - exists new. auto.
  - destruct (isinstance e FileNotFoundError);
      [|destruct (isinstance e Exception)].
    + exists (new ++ [(ERROR, MsgCsvNotFound (input_csv cfg))]). split.
      * simpl. rewrite Hl. symmetry; apply app_assoc.
      * intros r Hr. apply in_app_or in Hr.
        destruct Hr as [Hr|[<-|[]]]; [auto|left; reflexivity].
    + exists (new ++ [(ERROR, MsgCsvReadError e)]). split.
      * simpl. rewrite Hl. symmetry; apply app_assoc.
      * intros r Hr. apply in_app_or in Hr.
        destruct Hr as [Hr|[<-|[]]]; [auto|left; reflexivity].
    + exists new. auto.
Qed.

Lemma setup_log_no_row cls cfg r :
  In r (setup_log cls cfg) -> reported_row r = None.
Proof.
  unfold setup_log, start_log. destruct (image_format_unknown (img_format cfg)); simpl;
    intros H; repeat (destruct H as [<-|H]; [reflexivity|]); destruct H.
Qed.

Lemma generate_log w cfg r :
  In r (out_log (generate_barcodes_from_csv w cfg)) ->
  reported_row r = None
  \/ exists cls, w_get_barcode_class w (code_format cfg) = Returns cls
                 /\ from_row w cls cfg r.
Proof.
  unfold generate_barcodes_from_csv.
  destruct (w_makedirs w (output_folder cfg)) as [u|e].
  2:{ destruct (isinstance e OSError); unfold start_log; simpl;
      intros H; repeat (destruct H as [<-|H]; [left; reflexivity|]); destruct H. }
  destruct (w_get_barcode_class w (code_format cfg)) as [cls|e].
  2:{ destruct (isinstance e BarcodeNotFoundError); unfold start_log; simpl;
      intros H; repeat (destruct H as [<-|H]; [left; reflexivity|]); destruct H. }
  match goal with
  | |- context [csv_block w cls cfg ?s] => set (st0 := s)
  end.
  destruct (csv_block_log w cls cfg st0) as (new & Hl & Hn).
  assert (B : forall r', In r' (log st0 ++ new) ->
                reported_row r' = None
                \/ exists c, Returns cls = Returns c /\ from_row w c cfg r').
  { intros r' Hr. apply in_app_or in Hr. destruct Hr as [Hr|Hr].
    - left. revert Hr. apply setup_log_no_row.
    - destruct (Hn r' Hr) as [?|?]; [left; assumption|right; exists cls; auto]. }
  destruct (csv_block w cls cfg st0) as [[|] s|e s]; simpl in Hl; simpl.
  - rewrite Hl. apply B.
  - rewrite Hl. intros H. apply in_app_or in H.
    destruct H as [H|[<-|[]]]; [apply B; exact H|left; reflexivity].
  - rewrite Hl. apply B.
Qed.

Lemma nth_error_tl (A : Type) (l : list A) (k : nat) :
  nth_error (tl l) k = nth_error l (S k).
Proof. destruct l; [destruct k|]; reflexivity. Qed.

(** C9. The row number in a log record is the position of the row in the
    file, counted from 1: the data row of index i (from 0) is reported as
    i + 2 when a header was skipped and as i + 1 otherwise.  So for the
    records of one row, and so for every record in the log of a run, which
    comes from the row of the file at the position it reports. *)
Theorem reported_row_numbers w cfg :
  (forall cls i row r n,
      In r (row_log cls cfg i row) -> reported_row r = Some n ->
      n = (Z.of_nat i + (if skip_header cfg then 2 else 1))%Z)
  /\ (forall r n,
        In r (out_log (generate_barcodes_from_csv w cfg)) ->
        reported_row r = Some n ->
        exists cls items i row,
          w_get_barcode_class w (code_format cfg) = Returns cls
          /\ w_open_csv w (input_csv cfg) = Returns items
          /\ nth_error (data_rows cfg items) i = Some (Yield row)
          /\ In r (row_log cls cfg i row)
          /\ n = (Z.of_nat i + (if skip_header cfg then 2 else 1))%Z
          /\ nth_error items (Z.to_nat (n - 1)) = Some (Yield row)).
Proof.
  split.
  - intros cls i row r n Hin Hn. exact (row_log_number cls cfg i row r Hin Hn).
  - intros r n Hin Hn.
    destruct (generate_log w cfg r Hin) as [H|(cls & Hc & items & k & row & Ho & Hk & Hr)];
      [congruence|].
    exists cls, items, k, row.
    pose proof (row_log_number cls cfg k row r Hr Hn) as E.
    unfold row_number in E. repeat split; try assumption.
    subst n. revert Hk. unfold data_rows. destruct (skip_header cfg).
    + rewrite nth_error_tl.
      replace (Z.to_nat (Z.of_nat k + 2 - 1)) with (S k) by lia. auto.
    + replace (Z.to_nat (Z.of_nat k + 1 - 1)) with k by lia. auto.
Qed.

End LogFacts.

(** ** The run *)

Section RunFacts.
Context {db : UnicodeDB}.
Variable Options : Type.
Implicit Types (cls : BarcodeClass Options) (cfg : Config Options)
  (w : World Options) (st : RunState) (e : exn).

Lemma generate_no_folder w cfg e :
  w_makedirs w (output_folder cfg) = Raises e ->
  isinstance e OSError = true ->
  generate_barcodes_from_csv w cfg
  = {| exit := Return PyNone; counters := None;
       out_log := start_log cfg ++ [(ERROR, MsgCannotCreateFolder e)];
       out_written := [] |}.
Proof.
  intros Hm He. unfold generate_barcodes_from_csv. rewrite Hm, He. reflexivity.
Qed.

Lemma generate_no_format w cfg e :
  w_makedirs w (output_folder cfg) = Returns tt ->
  w_get_barcode_class w (code_format cfg) = Raises e ->
  isinstance e BarcodeNotFoundError = true ->
  generate_barcodes_from_csv w cfg
  = {| exit := Return PyNone; counters := None;
       out_log := start_log cfg
                  ++ [(INFO, MsgFolderReady (output_folder cfg));
                      (ERROR, MsgFormatNotFound (code_format cfg))];
       out_written := [] |}.
Proof.
  intros Hm Hc He. unfold generate_barcodes_from_csv. rewrite Hm, Hc, He.
  rewrite <- app_assoc. reflexivity.
Qed.

Lemma generate_no_file w cfg cls e :
  w_makedirs w (output_folder cfg) = Returns tt ->
  w_get_barcode_class w (code_format cfg) = Returns cls ->
  w_open_csv w (input_csv cfg) = Raises e ->
  isinstance e FileNotFoundError = true ->
  generate_barcodes_from_csv w cfg
  = {| exit := Return PyNone; counters := Some (0, 0)%Z;
       out_log := setup_log cls cfg
                  ++ [(ERROR, MsgCsvNotFound (input_csv cfg)); (INFO, MsgSummary 0 0)];
       out_written := [] |}.
Proof.
  intros Hm Hc Ho He. rewrite (generate_after_setup w cfg Hm Hc).
  unfold csv_block, read_csv, bind at 1. rewrite Ho. simpl. rewrite He.
  unfold leave. simpl. rewrite <- app_assoc. reflexivity.
Qed.

Lemma generate_empty_header w cfg cls :
  w_makedirs w (output_folder cfg) = Returns tt ->
  w_get_barcode_class w (code_format cfg) = Returns cls ->
  w_open_csv w (input_csv cfg) = Returns [] ->
  skip_header cfg = true ->
  generate_barcodes_from_csv w cfg
  = {| exit := Return PyNone; counters := Some (0, 0)%Z;
       out_log := setup_log cls cfg ++ [(WARNING, MsgCsvEmpty)];
       out_written := [] |}.
Proof.
  intros Hm Hc Ho Hs. rewrite (generate_after_setup w cfg Hm Hc).
  unfold csv_block, read_csv, bind at 1. rewrite Ho, Hs. reflexivity.
Qed.

Lemma generate_returns_none w cfg (v : PyValue) :
  exit (generate_barcodes_from_csv w cfg) = Return v -> v = PyNone.
Proof.
  unfold generate_barcodes_from_csv.
  destruct (w_makedirs w (output_folder cfg)) as [u|e].
  2:{ destruct (isinstance e OSError); simpl; congruence. }
  destruct (w_get_barcode_class w (code_format cfg)) as [cls|e].
  2:{ destruct (isinstance e BarcodeNotFoundError); simpl; congruence. }
  destruct (csv_block w cls cfg _) as [[|] s|e s]; simpl; congruence.
Qed.

(** C4. With header skipping on and a CSV file without any row, the run
    logs the warning of line 90 and returns from line 91: both counters are
    zero, no row was processed, nothing was written, and there is no
    summary. *)
Theorem empty_csv_with_header w cfg cls :
  w_makedirs w (output_folder cfg) = Returns tt ->
  w_get_barcode_class w (code_format cfg) = Returns cls ->
  w_open_csv w (input_csv cfg) = Returns [] ->
  skip_header cfg = true ->
  generate_barcodes_from_csv w cfg
  = {| exit := Return PyNone; counters := Some (0, 0)%Z;
       out_log := setup_log cls cfg ++ [(WARNING, MsgCsvEmpty)];
       out_written := [] |}.
Proof. apply generate_empty_header. Qed.

(** C2, as the code has it.  The function gives back None whenever it
    returns, never a pair; the counts are in the summary record logged at
    line 148.  An output folder that cannot be created, and an unknown
    barcode format, end the run before the counters exist, without summary;
    a missing input file leaves both counters at zero and the summary
    reports 0 and 0; an empty file with header skipping leaves them at zero
    without summary.  In all four nothing is written. *)
Theorem run_returns_none w cfg :
  (forall v, exit (generate_barcodes_from_csv w cfg) = Return v -> v = PyNone)
  /\ (forall e,
        w_makedirs w (output_folder cfg) = Raises e ->
        isinstance e OSError = true ->
        generate_barcodes_from_csv w cfg
        = {| exit := Return PyNone; counters := None;
             out_log := start_log cfg ++ [(ERROR, MsgCannotCreateFolder e)];
             out_written := [] |})
  /\ (forall e,
        w_makedirs w (output_folder cfg) = Returns tt ->
        w_get_barcode_class w (code_format cfg) = Raises e ->
        isinstance e BarcodeNotFoundError = true ->
        generate_barcodes_from_csv w cfg
        = {| exit := Return PyNone; counters := None;
             out_log := start_log cfg
                        ++ [(INFO, MsgFolderReady (output_folder cfg));
                            (ERROR, MsgFormatNotFound (code_format cfg))];
             out_written := [] |})
  /\ (forall cls e,
        w_makedirs w (output_folder cfg) = Returns tt ->
        w_get_barcode_class w (code_format cfg) = Returns cls ->
        w_open_csv w (input_csv cfg) = Raises e ->
        isinstance e FileNotFoundError = true ->
        generate_barcodes_from_csv w cfg
        = {| exit := Return PyNone; counters := Some (0, 0)%Z;
             out_log := setup_log cls cfg
                        ++ [(ERROR, MsgCsvNotFound (input_csv cfg));
                            (INFO, MsgSummary 0 0)];
             out_written := [] |})
  /\ (forall cls,
        w_makedirs w (output_folder cfg) = Returns tt ->
        w_get_barcode_class w (code_format cfg) = Returns cls ->
        w_open_csv w (input_csv cfg) = Returns [] ->
        skip_header cfg = true ->
        generate_barcodes_from_csv w cfg
        = {| exit := Return PyNone; counters := Some (0, 0)%Z;
             out_log := setup_log cls cfg ++ [(WARNING, MsgCsvEmpty)];
             out_written := [] |})
  /\ (forall cls st,
        w_makedirs w (output_folder cfg) = Returns tt ->
        w_get_barcode_class w (code_format cfg) = Returns cls ->
        csv_block w cls cfg (initial_state cls cfg) = Ok false st ->
        generate_barcodes_from_csv w cfg
        = {| exit := Return PyNone;
             counters := Some (processed_count st, skipped_count st);
             out_log := log st
                        ++ [(INFO, MsgSummary (processed_count st) (skipped_count st))];
             out_written := written st |}).
Proof.
  split; [intros v; apply generate_returns_none|].
  split; [intros e; apply generate_no_folder|].
  split; [intros e; apply generate_no_format|].
  split; [intros cls e; apply generate_no_file|].
  split; [intros cls; apply generate_empty_header|].
  intros cls st Hm Hc Hb. rewrite (generate_after_setup w cfg Hm Hc), Hb.
  reflexivity.
Qed.

(** *** The path handed to [save] *)

Lemma remove_from_rest (old t : Str) : remove_from old (length t) t = [].
Proof. induction t as [|c t IH]; simpl; auto. Qed.

Lemma startswith_self (p : Str) : startswith p p = true.
Proof.
  induction p as [|c p IH]; simpl; [reflexivity|].
  rewrite N.eqb_refl. exact IH.
Qed.

(** Cutting [.ext] from a path that has its only dot there leaves what
    stood before it. *)
Lemma remove_extension (pre ext : Str) :
  ~ In dot pre -> remove_from (dot :: ext) 0 (pre ++ dot :: ext) = pre.
Proof.
  induction pre as [|c pre IH]; intros Hd.
  - cbn [app remove_from]. rewrite startswith_self.
    cbn [length Nat.sub]. rewrite Nat.sub_0_r. apply remove_from_rest.
  - cbn [app remove_from startswith].
    destruct (N.eqb dot c) eqn:E.
    + apply N.eqb_eq in E. exfalso. apply Hd. left. auto.
    + cbn [andb]. rewrite IH; [reflexivity|]. intros H. apply Hd. right. exact H.
Qed.

Lemma keeps_not_dot (s : Str) :
  (forall c, In c s -> keeps c = true) -> ~ In dot s.
Proof. intros H Hd. apply H in Hd. vm_compute in Hd. discriminate. Qed.

Lemma path_join_app (a b x : Str) :
  b <> [] -> (forall c, In c b -> keeps c = true) ->
  path_join a (b ++ x) = path_join a b ++ x.
Proof.
  intros Hne Hk. destruct b as [|c b]; [contradiction|].
  assert (Hc : N.eqb slash c = false).
  { destruct (N.eqb slash c) eqn:E; [|reflexivity].
    apply N.eqb_eq in E. subst c.
    specialize (Hk slash (or_introl eq_refl)). vm_compute in Hk. discriminate. }
  unfold path_join. cbn [app startswith]. rewrite Hc. cbn [andb].
  destruct a as [|a0 a']; [reflexivity|].
  destruct (N.eqb (last (a0 :: a') 0%N) slash).
  - rewrite <- app_assoc. reflexivity.
  - rewrite <- app_assoc. reflexivity.
Qed.

Lemma path_join_no_dot (a b : Str) :
  ~ In dot a -> ~ In dot b -> ~ In dot (path_join a b).
Proof.
  intros Ha Hb. unfold path_join.
  destruct (startswith [slash] b); [exact Hb|].
  destruct a as [|a0 a']; [exact Hb|].
  destruct (N.eqb (last (a0 :: a') 0%N) slash); intros H; apply in_app_or in H;
    destruct H as [H|H]; try tauto.
  destruct H as [H|H]; [discriminate H|tauto].
Qed.

(** When the output folder has no dot in its name, [save] is asked for the
    safe name inside the output folder. *)
Lemma save_path_in_folder cfg (code : Str) (n : Z) :
  ~ In dot (output_folder cfg) ->
  save_path cfg (safe_filename code n)
  = path_join (output_folder cfg) (safe_filename code n).
Proof.
  intros Hd. unfold save_path, output_path, dot_ext, remove_all.
  rewrite path_join_app;
    [|apply safe_filename_not_nil|apply safe_filename_keeps].
  apply remove_extension. apply path_join_no_dot; [exact Hd|].
  apply keeps_not_dot, safe_filename_keeps.
Qed.

End RunFacts.

(** ** The properties on the shop's file *)

Section ShopRuns.
Import Shop.

Lemma ean13_validation_witness :
  process_row (db := ascii_only) ean13_class script_cfg 1 [lit "1234"] blank
  = Ok tt (skipped_with (WARNING, MsgNotEan13 3 (lit "1234")) blank).
Proof.
  refine (proj1 (@ean13_validation ascii_only Opts ean13_class script_cfg 1
                   [lit "1234"] (lit "1234") blank _ _ _ _) _).
  - reflexivity.
  - reflexivity.
  - reflexivity.
  - discriminate.
  - right. discriminate.
Defined.

Lemma empty_code_skipped_witness :
  process_row (db := ascii_only) ean13_class script_cfg 0 [lit "   "] blank
  = Ok tt (skipped_with (WARNING, MsgEmptyEntry 2) blank).
Proof.
  refine (proj1 (@empty_code_skipped ascii_only Opts ean13_class script_cfg 0
                   [lit "   "] (lit "   ") blank _ _ _)); reflexivity.
Defined.

Lemma short_row_skipped_witness :
  process_row (db := ascii_only) ean13_class (with_column 2 script_cfg) 0
    [lit "123456789012"; lit "x"] blank
  = Ok tt (skipped_with (WARNING, MsgTooFewColumns 2 2) blank).
Proof.
  refine (proj2 (@short_row_skipped ascii_only Opts ean13_class
                   (with_column 2 script_cfg) 0 [lit "123456789012"; lit "x"] blank _)).
  simpl. lia.
Defined.

Lemma row_errors_caught_witness :
  process_row (db := ascii_only) code39_class (with_format (lit "code39") script_cfg) 0
    [lit "abc"] blank
  = Ok tt (skipped_with (ERROR, MsgCodeError (lit "abc") 2 illegal_character) blank).
Proof.
  refine (proj1 (proj2 (@row_errors_caught ascii_only Opts code39_class
                          (with_format (lit "code39") script_cfg) 0 [lit "abc"] []
                          blank illegal_character _))
            (lit "abc") _ _ _ _ _).
  - reflexivity.
  - reflexivity.
  - reflexivity.
  - discriminate.
  - reflexivity.
  - reflexivity.
Defined.

Lemma ean13_class_errors_only : errors_only ean13_class.
Proof.
  intros i code. split.
  - intros e H. discriminate H.
  - intros bc path opts e H. injection H as <-. intros H. discriminate H.
Defined.

Lemma counter_conservation_witness :
  exists p s,
    counters (generate_barcodes_from_csv (db := ascii_only) shop_world script_cfg)
    = Some (p, s)
    /\ (p + s = 3)%Z /\ (0 <= p)%Z /\ (0 <= s)%Z.
Proof.
  refine (proj2 (proj2 (@counter_conservation ascii_only Opts ean13_class script_cfg
                          ean13_class_errors_only))
            shop_world [lit "code"]
            [[lit "123456789012"]; [lit "1234"]; [lit "abc"]] _ _ _);
    reflexivity.
Defined.

Lemma reported_row_numbers_witness :
  exists cls items i row,
    w_get_barcode_class shop_world (code_format script_cfg) = Returns cls
    /\ w_open_csv shop_world (input_csv script_cfg) = Returns items
    /\ nth_error (data_rows script_cfg items) i = Some (Yield row)
    /\ In (WARNING, MsgNotEan13 3 (lit "1234")) (row_log (db := ascii_only) cls script_cfg i row)
    /\ 3%Z = (Z.of_nat i + (if skip_header script_cfg then 2 else 1))%Z
    /\ nth_error items (Z.to_nat (3 - 1)) = Some (Yield row).
Proof.
  refine (proj2 (@reported_row_numbers ascii_only Opts shop_world script_cfg)
            (WARNING, MsgNotEan13 3 (lit "1234")) 3%Z _ _).
  - vm_compute. do 7 right. left. reflexivity.
  - reflexivity.
Defined.

Lemma empty_csv_with_header_witness :
  generate_barcodes_from_csv (db := ascii_only) empty_world script_cfg
  = {| exit := Return PyNone; counters := Some (0, 0)%Z;
       out_log := setup_log (db := ascii_only) ean13_class script_cfg
                  ++ [(WARNING, MsgCsvEmpty)];
       out_written := [] |}.
Proof.
  refine (@empty_csv_with_header ascii_only Opts empty_world script_cfg ean13_class
            _ _ _ _); reflexivity.
Defined.

Lemma run_returns_none_witness :
  generate_barcodes_from_csv (db := ascii_only) no_file_world script_cfg
  = {| exit := Return PyNone; counters := Some (0, 0)%Z;
       out_log := setup_log (db := ascii_only) ean13_class script_cfg
                  ++ [(ERROR, MsgCsvNotFound (input_csv script_cfg));
                      (INFO, MsgSummary 0 0)];
       out_written := [] |}.
Proof.
  refine (proj1 (proj2 (proj2 (proj2
            (@run_returns_none ascii_only Opts no_file_world script_cfg))))
            ean13_class file_not_found _ _ _ _); reflexivity.
Defined.

(** C2, as the specification has it, fails: the run over the shop's file
    counts one processed and two skipped, and gives back None, not a pair;
    and so does the run without its input file, which counts nothing. *)
Lemma run_returns_no_pair :
  counters (generate_barcodes_from_csv (db := ascii_only) shop_world script_cfg)
  = Some (1, 2)%Z
  /\ exit (generate_barcodes_from_csv (db := ascii_only) shop_world script_cfg)
     <> Return (PyTuple2 1 2)
  /\ exit (generate_barcodes_from_csv (db := ascii_only) no_file_world script_cfg)
     <> Return (PyTuple2 0 0).
Proof.
  split; [reflexivity|]. split; vm_compute; discriminate.
Qed.

(** C5, at an output folder named "out.png".  The path of line 123 is
    "out.png/123456789012.png"; line 127 removes ".png" from all of it, not
    from its end only, and [save] is asked to write "out/123456789012": the
    row counts as processed and its image is outside the output folder. *)
Theorem save_path_leaves_folder :
  output_path (db := ascii_only) dotted_cfg (lit "123456789012")
  = lit "out.png/123456789012.png"
  /\ save_path (db := ascii_only) dotted_cfg
       (safe_filename (db := ascii_only) (lit "123456789012") 2)
     = lit "out/123456789012"
  /\ path_join (output_folder dotted_cfg)
       (safe_filename (db := ascii_only) (lit "123456789012") 2)
     = lit "out.png/123456789012"
  /\ out_written (generate_barcodes_from_csv (db := ascii_only) shop_world dotted_cfg)
     = [(lit "out/123456789012", lit "out/123456789012.png")]
  /\ counters (generate_barcodes_from_csv (db := ascii_only) shop_world dotted_cfg)
     = Some (1, 2)%Z.
Proof. repeat split; vm_compute; reflexivity. Qed.

(** With the folder of the script, which has no dot, the image goes where
    the specification says. *)
Lemma save_path_of_script :
  out_written (generate_barcodes_from_csv (db := ascii_only) shop_world script_cfg)
  = [(lit "wygenerowane_kody_kreskowe/123456789012",
      lit "wygenerowane_kody_kreskowe/123456789012.png")].
Proof. vm_compute. reflexivity. Qed.

End ShopRuns.

(** * Further properties *)

(** ** Trimming, names and paths *)

Section MoreStringFacts.
Context {db : UnicodeDB}.








Lemma plain_not_slash (s : Str) :
  (forall c, In c s -> keeps c = true) -> startswith [slash] s = false.
Proof.
  intros H. destruct s as [|c r]; [reflexivity|]. cbn [startswith].
  destruct (N.eqb slash c) eqn:E; [|reflexivity].
  apply N.eqb_eq in E. subst c.
  specialize (H slash (or_introl eq_refl)). vm_compute in H. discriminate.
Qed.

Lemma path_join_inj (a b1 b2 : Str) :
  startswith [slash] b1 = false -> startswith [slash] b2 = false ->
  path_join a b1 = path_join a b2 -> b1 = b2.
Proof.
  intros H1 H2. unfold path_join. rewrite H1, H2.
  destruct a as [|a0 a']; [auto|].
  destruct (N.eqb (last (a0 :: a') 0%N) slash); intros H.
  - apply app_inv_head in H. exact H.
  - apply app_inv_head in H. injection H. auto.
Qed.

Lemma safe_filename_plain (code : Str) (n : Z) :
  code <> [] -> (forall c, In c code -> plain c = true) ->
  safe_filename code n = code.
Proof.
  intros Hne Hp. unfold safe_filename. rewrite (sanitize_plain code Hp).
  destruct code; [contradiction|reflexivity].
Qed.

(** X10. A code of ASCII letters, digits, hyphens and underscores names its
    own image; with an output folder without a dot, [save] is asked for the
    folder joined with the code, so that two such codes get the same path
    only when they are the same code. *)
Theorem plain_codes_keep_apart (Options : Type) (cfg : Config Options)
    (c1 c2 : Str) (n1 n2 : Z) :
  ~ In dot (output_folder cfg) ->
  c1 <> [] -> c2 <> [] ->
  (forall c, In c c1 -> plain c = true) ->
  (forall c, In c c2 -> plain c = true) ->
  save_path cfg (safe_filename c1 n1) = path_join (output_folder cfg) c1
  /\ (save_path cfg (safe_filename c1 n1) = save_path cfg (safe_filename c2 n2) ->
      c1 = c2).
Proof.
  intros Hd H1 H2 P1 P2.
  rewrite !(save_path_in_folder cfg _ _ Hd).
  rewrite (safe_filename_plain n1 H1 P1), (safe_filename_plain n2 H2 P2).
  split; [reflexivity|].
  apply path_join_inj; apply plain_not_slash; intros c Hc; apply plain_keeps; auto.
Qed.






Lemma lower_to_upper (c x : N) :
  between 97 122 x = true -> ascii_lower c = x -> ascii_upper c = (x - 32)%N.
Proof.
  unfold ascii_lower, ascii_upper, between.
  rewrite andb_true_iff, !N.leb_le. intros [L U].
  destruct (N.leb 65 c && N.leb c 90) eqn:A.
  - apply andb_true_iff in A. rewrite !N.leb_le in A. intros <-.
    replace (N.leb 97 c && N.leb c 122) with false; [lia|].
    symmetry. apply andb_false_iff. rewrite !N.leb_gt. lia.
  - intros ->. replace (N.leb 97 x && N.leb x 122) with true; [reflexivity|].
    symmetry. apply andb_true_iff. rewrite !N.leb_le. lia.
Qed.

Lemma svg_upper (img : Str) :
  forallb is_ascii img = true -> lower img = lit "svg" -> upper img = lit "SVG".
Proof.
  intros A. unfold lower, upper. rewrite A.
  destruct img as [|a [|b [|c [|d r]]]]; try discriminate.
  cbn [map]. intros H. injection H as Ha Hb Hc.
  rewrite (@lower_to_upper a 115%N eq_refl Ha), (@lower_to_upper b 118%N eq_refl Hb),
    (@lower_to_upper c 103%N eq_refl Hc). reflexivity.
Qed.

(** X13. For an image format written in ASCII, the second test of line 72
    decides nothing: a format that lowers to "svg" is "SVG" in upper case,
    which is in the list.  The warning of line 73 is logged exactly when the
    upper-cased format is not in the list. *)
Theorem svg_test_redundant (img : Str) :
  forallb is_ascii img = true ->
  image_format_unknown img
  = negb (existsb (PyStr.eqb (upper img)) valid_image_formats).
Proof.
  intros A. unfold image_format_unknown.
  destruct (PyStr.eqb (lower img) (lit "svg")) eqn:L.
  - apply eqb_eq in L. rewrite (svg_upper img A L). reflexivity.
  - apply andb_true_r.
Qed.

End MoreStringFacts.

(** ** The column index and the formats without validation *)

Section MoreRowFacts.
Context {db : UnicodeDB}.
Variable Options : Type.
Implicit Types (cls : BarcodeClass Options) (cfg : Config Options)
  (w : World Options) (row : list Str) (st : RunState) (e : exn).

Lemma nth_error_in_range (row : list Str) (j : nat) :
  (j < length row)%nat -> exists field, nth_error row j = Some field.
Proof.
  intros H. destruct (nth_error row j) as [f|] eqn:E; [exists f; reflexivity|].
  apply nth_error_None in E. lia.
Qed.

Lemma py_index_in_range row (i : Z) :
  (0 <= i < Z.of_nat (length row))%Z ->
  exists field, nth_error row (Z.to_nat i) = Some field
                /\ py_index row i = Returns field.
Proof.
  intros H. destruct (@nth_error_in_range row (Z.to_nat i)) as [f Hf]; [lia|].
  exists f. split; [exact Hf|]. unfold py_index.
  replace (i <? 0)%Z with false by (symmetry; apply Z.ltb_ge; lia).
  replace ((0 <=? i) && (i <? Z.of_nat (length row)))%Z with true.
  - rewrite Hf. reflexivity.
  - symmetry. apply andb_true_iff. rewrite Z.leb_le, Z.ltb_lt. lia.
Qed.

Lemma py_index_from_end row (i : Z) :
  (- Z.of_nat (length row) <= i < 0)%Z ->
  exists field, nth_error row (Z.to_nat (Z.of_nat (length row) + i)) = Some field
                /\ py_index row i = Returns field.
Proof.
  intros H.
  destruct (@nth_error_in_range row (Z.to_nat (Z.of_nat (length row) + i)))
    as [f Hf]; [lia|].
  exists f. split; [exact Hf|]. unfold py_index.
  replace (i <? 0)%Z with true by (symmetry; apply Z.ltb_lt; lia).
  replace ((0 <=? Z.of_nat (length row) + i)
           && (Z.of_nat (length row) + i <? Z.of_nat (length row)))%Z with true.
  - rewrite Hf. reflexivity.
  - symmetry. apply andb_true_iff. rewrite Z.leb_le, Z.ltb_lt. lia.
Qed.

Lemma py_index_too_far row (i : Z) :
  (i < - Z.of_nat (length row))%Z ->
  py_index row i = Raises (mk_exn IndexError (lit "list index out of range")).
Proof.
  intros H. unfold py_index.
  replace (i <? 0)%Z with true by (symmetry; apply Z.ltb_lt; lia).
  replace (0 <=? Z.of_nat (length row) + i)%Z with false; [reflexivity|].
  symmetry. apply Z.leb_gt. lia.
Qed.

(** With a column index that is not negative, the body of a row raises
    nothing that derives from Exception. *)
Lemma row_body_no_error cls cfg i row st e st' :
  (0 <= col_index cfg)%Z ->
  row_body cls cfg i row st = Raise e st' -> isinstance e Exception = false.
Proof.
  intros Hc. rewrite row_body_cases.
  destruct (Z.of_nat (length row) >? col_index cfg)%Z eqn:G; [|discriminate].
  apply Z.gtb_gt in G.
  destruct (@py_index_in_range row (col_index cfg)) as (f & _ & ->); [lia|].
  intros H. apply with_code_raise in H. tauto.
Qed.

Lemma row_log_no_row_error cls cfg i row r :
  (0 <= col_index cfg)%Z ->
  In r (row_log cls cfg i row) -> is_row_error r = false.
Proof.
  intros Hc.
  assert (One : forall lv m, is_row_error (lv, m) = false ->
                             In r [(lv, m)] -> is_row_error r = false).
  { intros lv m H [<-|[]]. exact H. }
  unfold row_log. rewrite process_row_cases, row_body_cases.
  destruct (Z.of_nat (length row) >? col_index cfg)%Z eqn:G;
    [|apply One; reflexivity].
  apply Z.gtb_gt in G.
  destruct (@py_index_in_range row (col_index cfg)) as (field & _ & ->); [lia|].
  destruct (strip field) as [|c code'].
  - unfold with_code. rewrite skip_step. apply One; reflexivity.
  - rewrite with_code_cons by discriminate.
    destruct (PyStr.eqb _ _ && not_ean13 _); [apply One; reflexivity|].
    rewrite render_code_cases. cbv zeta.
    destruct (rendering cls cfg i (c :: code')) as [a|e];
      [apply One; reflexivity|].
    destruct (isinstance e Exception) eqn:E; [apply One; reflexivity|].
    rewrite E. intros [].
Qed.

(** X2. With a column index that is not negative, the test of line 97
    keeps the access of line 98 inside the row: the body of a row raises no
    error, the handler of line 139 has nothing to catch, and no run logs its
    message. *)
Theorem no_row_error w cfg :
  (0 <= col_index cfg)%Z ->
  (forall cls i row st e st',
      row_body cls cfg i row st = Raise e st' -> isinstance e Exception = false)
  /\ (forall r, In r (out_log (generate_barcodes_from_csv w cfg)) ->
                is_row_error r = false).
Proof.
  intros Hc. split.
  - intros cls i row st e st'. apply row_body_no_error, Hc.
  - intros r Hr.
    destruct (generate_log w cfg r Hr) as [H|(cls & _ & items & k & row & _ & _ & Hin)].
    + destruct r as [lv []]; simpl in H; try discriminate; reflexivity.
    + exact (row_log_no_row_error cls cfg k row r Hc Hin).
Qed.

(** X3. With a negative column index the test of line 97 always passes and
    the index counts from the end of the row: a row with fewer fields than
    the index reaches back is skipped by the handler of line 139, with the
    IndexError in its record; a longer row gives the field that far from its
    end. *)
Theorem negative_column cls cfg i row st :
  (col_index cfg < 0)%Z ->
  ((Z.of_nat (length row) < - col_index cfg)%Z ->
   process_row cls cfg i row st
   = Ok tt (skipped_with
              (ERROR, MsgRowError (row_number (skip_header cfg) i)
                        (mk_exn IndexError (lit "list index out of range"))) st))
  /\ ((- col_index cfg <= Z.of_nat (length row))%Z ->
      exists field,
        nth_error row (Z.to_nat (Z.of_nat (length row) + col_index cfg)) = Some field
        /\ row_body cls cfg i row st = with_code cls cfg i (strip field) st).
Proof.
  intros Hc.
  assert (G : (Z.of_nat (length row) >? col_index cfg)%Z = true)
    by (apply Z.gtb_gt; lia).
  split.
  - intros Hs. rewrite process_row_cases, row_body_cases, G.
    rewrite py_index_too_far by lia. reflexivity.
  - intros Hl. destruct (@py_index_from_end row (col_index cfg)) as (f & Hf & Hp); [lia|].
    exists f. split; [exact Hf|]. rewrite row_body_cases, G, Hp. reflexivity.
Qed.

(** X9. Under a format other than "ean13" there is no validation: every
    code that is not empty once trimmed is handed to the renderer as it is,
    and the row counts as processed when the renderer writes its image and
    as skipped when the renderer raises an error. *)
Theorem other_formats_unvalidated cls cfg i row field st :
  lower (code_format cfg) <> lit "ean13" ->
  (Z.of_nat (length row) > col_index cfg)%Z ->
  py_index row (col_index cfg) = Returns field ->
  strip field <> [] ->
  let code := strip field in
  let rn := row_number (skip_header cfg) i in
  process_row cls cfg i row st =
  match rendering cls cfg i code with
  | Returns actual =>
      Ok tt (processed_with code (save_path cfg (safe_filename code rn)) actual st)
  | Raises e =>
      if isinstance e Exception
      then Ok tt (skipped_with (ERROR, MsgCodeError code rn e) st)
      else Raise e st
  end.
Proof.
  intros Hfmt Hlen Hf Hne code rn.
  rewrite (process_row_with_code cls cfg i row st Hlen Hf).
  rewrite (with_code_cons cls cfg i st Hne). fold code rn.
  replace (PyStr.eqb (lower (code_format cfg)) (lit "ean13")) with false.
  - cbn [andb]. rewrite render_code_cases. fold rn.
    destruct (rendering cls cfg i code) as [a|e]; [reflexivity|].
    cbv zeta. destruct (isinstance e Exception) eqn:E; [reflexivity|].
    rewrite E. reflexivity.
  - symmetry. destruct (PyStr.eqb _ _) eqn:E; [|reflexivity].
    apply eqb_eq in E. contradiction.
Qed.

End MoreRowFacts.

(** ** Whole runs *)

Section MoreRunFacts.
Context {db : UnicodeDB}.
Variable Options : Type.
Implicit Types (cls : BarcodeClass Options) (cfg : Config Options)
  (w : World Options) (row : list Str) (st : RunState) (e : exn) (r : LogRecord).

Ltac skipped_case :=
  left; eexists; split; [|split; [|split; [|reflexivity]]]; reflexivity.

(** The three ways a row can end. *)
Lemma process_row_shape cls cfg i row st :
  (exists r, reports_row r = true /\ is_generated r = false /\ is_summary r = false
             /\ process_row cls cfg i row st = Ok tt (skipped_with r st))
  \/ (exists field actual,
        py_index row (col_index cfg) = Returns field
        /\ strip field <> []
        /\ passes_validation cfg (strip field) = true
        /\ process_row cls cfg i row st
           = Ok tt (processed_with (strip field)
                      (save_path cfg
                         (safe_filename (strip field) (row_number (skip_header cfg) i)))
                      actual st))
  \/ (exists e, process_row cls cfg i row st = Raise e st).
Proof.
  rewrite process_row_cases, row_body_cases.
  destruct (Z.of_nat (length row) >? col_index cfg)%Z;
    [|skipped_case].
  destruct (py_index row (col_index cfg)) as [field|e0] eqn:Hf.
  2:{ destruct (isinstance e0 Exception);
        [skipped_case|right; right; eexists; reflexivity]. }
  destruct (strip field) as [|c code'] eqn:S.
  - unfold with_code. rewrite skip_step. skipped_case.
  - rewrite with_code_cons by discriminate.
    destruct (PyStr.eqb _ _ && not_ean13 _) eqn:V; [skipped_case|].
    rewrite render_code_cases. cbv zeta.
    destruct (rendering cls cfg i (c :: code')) as [a|e] eqn:R.
    + right; left. exists field, a. rewrite S.
      repeat split; try discriminate. unfold passes_validation. rewrite V. reflexivity.
    + destruct (isinstance e Exception) eqn:E; [skipped_case|].
      rewrite E. right; right. eexists; reflexivity.
Qed.

(** A property of the state that every row keeps is kept by the loop. *)
Lemma run_rows_inv cls cfg (P : RunState -> Prop) (items : list ReaderItem) :
  forall i0 st,
    (forall k row s, nth_error items k = Some (Yield row) -> P s ->
                     P (res_state (process_row cls cfg (i0 + k) row s))) ->
    P st -> P (res_state (run_rows cls cfg i0 items st)).
Proof.
  induction items as [|[row|e] rest IH]; intros i0 st Hrow Hst; simpl; auto.
  unfold bind. pose proof (Hrow 0%nat row st eq_refl Hst) as H0.
  rewrite Nat.add_0_r in H0.
  destruct (process_row cls cfg i0 row st) as [a s|e s]; [|exact H0].
  apply IH; [|exact H0]. intros k row' s' Hk Hs.
  rewrite Nat.add_succ_l, <- Nat.add_succ_r. apply (Hrow (S k)); assumption.
Qed.

Lemma logging_logged (lv : Level) (m : Message) st :
  logging lv m st = Ok tt (logged (lv, m) st).
Proof. reflexivity. Qed.

Lemma csv_block_inv w cls cfg (P : RunState -> Prop) st :
  (forall items k row s,
      w_open_csv w (input_csv cfg) = Returns items ->
      nth_error (data_rows cfg items) k = Some (Yield row) ->
      P s -> P (res_state (process_row cls cfg k row s))) ->
  (forall r s, of_file_block r = true -> P s -> P (logged r s)) ->
  P st -> P (res_state (csv_block w cls cfg st)).
Proof.
  intros Hrow Hlog Hst.
  assert (R : P (res_state (read_csv w cls cfg st))).
  { unfold read_csv, bind at 1, call.
    destruct (w_open_csv w (input_csv cfg)) as [items|e] eqn:Ho; [|exact Hst].
    unfold ret at 1. destruct (skip_header cfg) eqn:Hs.
    - destruct items as [|[header|e] rest]; [apply Hlog; auto| |exact Hst].
      unfold bind at 1. rewrite logging_logged.
      assert (L : P (res_state (run_rows cls cfg 0 rest
                                  (logged (INFO, MsgHeaderSkipped header) st)))).
      { apply run_rows_inv; [|apply Hlog; auto].
        intros k row s Hk. apply (Hrow _ _ _ _ eq_refl).
        unfold data_rows. rewrite Hs. exact Hk. }
      unfold bind. destruct (run_rows cls cfg 0 rest _); exact L.
    - assert (L : P (res_state (run_rows cls cfg 0 items st))).
      { apply run_rows_inv; [|exact Hst].
        intros k row s Hk. apply (Hrow _ _ _ _ eq_refl).
        unfold data_rows. rewrite Hs. exact Hk. }
      unfold bind. destruct (run_rows cls cfg 0 items st); exact L. }
  unfold csv_block. destruct (read_csv w cls cfg st) as [b s|e s]; [exact R|].
  simpl in R.
  destruct (isinstance e FileNotFoundError); [apply Hlog; auto|].
  destruct (isinstance e Exception); [apply Hlog; auto|exact R].
Qed.

(** How a run ends: before the counters exist; from line 91 or with an
    exception, in a state the rows and the file block lead to; or after the
    summary logged in such a state. *)
Lemma generate_shape w cfg (P : RunState -> Prop) :
  (forall cls, w_get_barcode_class w (code_format cfg) = Returns cls ->
               P (initial_state cls cfg)) ->
  (forall cls items k row s,
      w_get_barcode_class w (code_format cfg) = Returns cls ->
      w_open_csv w (input_csv cfg) = Returns items ->
      nth_error (data_rows cfg items) k = Some (Yield row) ->
      P s -> P (res_state (process_row cls cfg k row s))) ->
  (forall r s, of_file_block r = true -> P s -> P (logged r s)) ->
  let o := generate_barcodes_from_csv w cfg in
  (counters o = None /\ out_written o = []
   /\ forall r, In r (out_log o) ->
                reports_row r = false /\ is_generated r = false
                /\ is_summary r = false)
  \/ (exists s x, P s /\ o = leave x s)
  \/ (exists s, P s
                /\ o = leave (Return PyNone)
                       (logged (INFO, MsgSummary (processed_count s) (skipped_count s)) s)).
Proof.
  intros Hinit Hrow Hlog. unfold generate_barcodes_from_csv.
  destruct (w_makedirs w (output_folder cfg)) as [u|e].
  2:{ left. destruct (isinstance e OSError); simpl; repeat split; auto;
      unfold start_log in H; simpl in H;
      repeat (destruct H as [<-|H]; [reflexivity|]); destruct H. }
  destruct (w_get_barcode_class w (code_format cfg)) as [cls|e] eqn:Hc.
  2:{ left. destruct (isinstance e BarcodeNotFoundError); simpl; repeat split; auto;
      unfold start_log in H; simpl in H;
      repeat (destruct H as [<-|H]; [reflexivity|]); destruct H. }
  change {| processed_count := 0; skipped_count := 0;
            log := setup_log cls cfg; written := [] |}
    with (initial_state cls cfg).
  pose proof (@csv_block_inv w cls cfg P (initial_state cls cfg)
                (fun items k row s => Hrow cls items k row s eq_refl)
                Hlog (Hinit cls eq_refl)) as B.
  destruct (csv_block w cls cfg (initial_state cls cfg)) as [[|] s|e s]; simpl in B.
  - right; left. exists s, (Return PyNone). auto.
  - right; right. exists s. auto.
  - right; left. exists s, (Propagate e). auto.
Qed.

Lemma accounted_skipped r st :
  reports_row r = true -> is_generated r = false -> is_summary r = false ->
  accounted st -> accounted (skipped_with r st).
Proof.
  intros R G S (A1 & A2 & A3 & A4). unfold accounted. simpl.
  rewrite !filter_app. simpl. rewrite R, G, S, !app_nil_r, length_app. simpl.
  repeat split; auto. lia.
Qed.

Lemma accounted_processed (code path actual : Str) st :
  accounted st -> accounted (processed_with code path actual st).
Proof.
  intros (A1 & A2 & A3 & A4). unfold accounted. simpl.
  rewrite !filter_app. simpl. rewrite !app_nil_r, !length_app. simpl.
  repeat split; auto; lia.
Qed.

Lemma accounted_logged r st :
  of_file_block r = true -> accounted st -> accounted (logged r st).
Proof.
  intros F (A1 & A2 & A3 & A4). unfold accounted. simpl.
  rewrite !filter_app. simpl.
  assert (E : reports_row r = false /\ is_generated r = false /\ is_summary r = false)
    by (destruct r as [lv []]; simpl in F; try discriminate; repeat split).
  destruct E as (-> & -> & ->). rewrite !app_nil_r. auto.
Qed.

Lemma accounted_row cls cfg i row st :
  accounted st -> accounted (res_state (process_row cls cfg i row st)).
Proof.
  intros A.
  destruct (process_row_shape cls cfg i row st)
    as [(r & R & G & S & ->)|[(f & a & _ & _ & _ & ->)|(e & ->)]]; simpl.
  - apply accounted_skipped; assumption.
  - apply accounted_processed; assumption.
  - exact A.
Qed.

Lemma accounted_initial cls cfg : accounted (initial_state cls cfg).
Proof.
  unfold accounted, initial_state, setup_log, start_log. simpl.
  destruct (image_format_unknown (img_format cfg)); simpl; auto.
Qed.

Lemma generate_accounted w cfg :
  let o := generate_barcodes_from_csv w cfg in
  (counters o = None /\ out_written o = []
   /\ forall r, In r (out_log o) ->
                reports_row r = false /\ is_generated r = false
                /\ is_summary r = false)
  \/ (exists s x, accounted s /\ o = leave x s)
  \/ (exists s, accounted s
                /\ o = leave (Return PyNone)
                       (logged (INFO, MsgSummary (processed_count s) (skipped_count s)) s)).
Proof.
  apply generate_shape.
  - intros cls _. apply accounted_initial.
  - intros cls items k row s _ _ _. apply accounted_row.
  - intros r s. apply accounted_logged.
Qed.

(** X4. At the end of every run that got as far as its counters, the
    processed counter is the number of images the renderer wrote and the
    number of success records in the log, and the skipped counter is the
    number of log records that report a row number. *)
Theorem counters_match_outputs w cfg (p s : Z) :
  counters (generate_barcodes_from_csv w cfg) = Some (p, s) ->
  p = Z.of_nat (length (out_written (generate_barcodes_from_csv w cfg)))
  /\ p = Z.of_nat (length (filter is_generated
                             (out_log (generate_barcodes_from_csv w cfg))))
  /\ s = Z.of_nat (length (filter reports_row
                             (out_log (generate_barcodes_from_csv w cfg)))).
Proof.
  destruct (generate_accounted w cfg)
    as [(N & _)|[(st & x & (A1 & A2 & A3 & _) & ->)|(st & (A1 & A2 & A3 & _) & ->)]].
  - intros H. congruence.
  - simpl. intros H; injection H as <- <-. auto.
  - simpl. intros H; injection H as <- <-.
    rewrite !filter_app. simpl. rewrite !app_nil_r. auto.
Qed.

(** X5. A summary record in the log of a run is its last record and the
    only summary, it is logged at level INFO, the run returned, and the
    numbers in it are the counters at the end of the run. *)
Theorem summary_is_last_and_true w cfg (lv : Level) (p s : Z) :
  In (lv, MsgSummary p s) (out_log (generate_barcodes_from_csv w cfg)) ->
  counters (generate_barcodes_from_csv w cfg) = Some (p, s)
  /\ exit (generate_barcodes_from_csv w cfg) = Return PyNone
  /\ lv = INFO
  /\ exists l, out_log (generate_barcodes_from_csv w cfg) = l ++ [(INFO, MsgSummary p s)]
               /\ filter is_summary l = [].
Proof.
  assert (No : forall l, filter is_summary l = [] -> ~ In (lv, MsgSummary p s) l).
  { intros l E H.
    assert (F : In (lv, MsgSummary p s) (filter is_summary l))
      by (apply filter_In; split; [exact H|reflexivity]).
    rewrite E in F. destruct F. }
  destruct (generate_accounted w cfg)
    as [(_ & _ & Q)|[(st & x & (_ & _ & _ & A4) & ->)|(st & (_ & _ & _ & A4) & ->)]].
  - intros H. apply Q in H. destruct H as (_ & _ & H). discriminate H.
  - simpl. intros H. destruct (No _ A4 H).
  - simpl. intros H. apply in_app_or in H. destruct H as [H|[H|[]]].
    + destruct (No _ A4 H).
    + injection H as <- <- <-. repeat split. exists (log st). auto.
Qed.

(** X7. Once the folder and the barcode class are there, no error leaves
    the function: it raises only what [os.makedirs] raises outside OSError,
    what the registry raises outside BarcodeNotFoundError, and what derives
    neither from Exception nor from FileNotFoundError. *)
Theorem only_unexpected_exceptions_escape w cfg e :
  exit (generate_barcodes_from_csv w cfg) = Propagate e ->
  (w_makedirs w (output_folder cfg) = Raises e /\ isinstance e OSError = false)
  \/ (w_get_barcode_class w (code_format cfg) = Raises e
      /\ isinstance e BarcodeNotFoundError = false)
  \/ (isinstance e Exception = false /\ isinstance e FileNotFoundError = false
      /\ exists u cls, w_makedirs w (output_folder cfg) = Returns u
                       /\ w_get_barcode_class w (code_format cfg) = Returns cls).
Proof.
  unfold generate_barcodes_from_csv.
  destruct (w_makedirs w (output_folder cfg)) as [u|e0].
  2:{ destruct (isinstance e0 OSError) eqn:E; simpl; [discriminate|].
      intros H; injection H as <-. auto. }
  destruct (w_get_barcode_class w (code_format cfg)) as [cls|e0].
  2:{ destruct (isinstance e0 BarcodeNotFoundError) eqn:E; simpl; [discriminate|].
      intros H; injection H as <-. auto. }
  unfold csv_block. destruct (read_csv w cls cfg _) as [[|] s|e0 s]; simpl;
    try discriminate.
  destruct (isinstance e0 FileNotFoundError) eqn:F; simpl; [discriminate|].
  destruct (isinstance e0 Exception) eqn:E; simpl; [discriminate|].
  intros H; injection H as <-. right; right. repeat split; auto.
  exists u, cls. auto.
Qed.

End MoreRunFacts.

(** ** Failures of the reader and of the file, and what gets written *)

Section MoreFileFacts.
Context {db : UnicodeDB}.
Variable Options : Type.
Implicit Types (cls : BarcodeClass Options) (cfg : Config Options)
  (w : World Options) (row : list Str) (st : RunState) (e : exn).

(** The loop over two parts of a file is the loop over the first part and
    then, when that ends, over the second, with the indices going on. *)
Lemma run_rows_app cls cfg (a b : list ReaderItem) :
  forall i st,
    run_rows cls cfg i (a ++ b) st =
    match run_rows cls cfg i a st with
    | Ok _ s => run_rows cls cfg (i + length a) b s
    | Raise e s => Raise e s
    end.
Proof.
  induction a as [|[row|e] a IH]; intros i st.
  - simpl. rewrite Nat.add_0_r. reflexivity.
  - cbn [app run_rows length]. unfold bind.
    destruct (process_row cls cfg i row st) as [u s|e s]; [|reflexivity].
    rewrite IH, Nat.add_succ_r. reflexivity.
  - reflexivity.
Qed.

Lemma csv_block_raise w cls cfg st e s :
  read_csv w cls cfg st = Raise e s ->
  isinstance e FileNotFoundError || isinstance e Exception = true ->
  csv_block w cls cfg st = Ok false (logged (file_error_record cfg e) s).
Proof.
  intros R H. unfold csv_block, file_error_record. rewrite R.
  destruct (isinstance e FileNotFoundError); [reflexivity|].
  simpl in H. rewrite H. reflexivity.
Qed.

Lemma generate_file_error w cfg cls e s :
  w_makedirs w (output_folder cfg) = Returns tt ->
  w_get_barcode_class w (code_format cfg) = Returns cls ->
  read_csv w cls cfg (initial_state cls cfg) = Raise e s ->
  isinstance e FileNotFoundError || isinstance e Exception = true ->
  generate_barcodes_from_csv w cfg
  = {| exit := Return PyNone;
       counters := Some (processed_count s, skipped_count s);
       out_log := log s ++ [file_error_record cfg e;
                            (INFO, MsgSummary (processed_count s) (skipped_count s))];
       out_written := written s |}.
Proof.
  intros Hm Hc R H. rewrite (generate_after_setup w cfg Hm Hc).
  rewrite (csv_block_raise w cls cfg _ R H). unfold leave. simpl.
  rewrite <- app_assoc. reflexivity.
Qed.

(** X6. When the reader raises an error in the middle of the file, the rows
    before it keep their effect, the rows after it are never read, the
    error is logged once, and the run still ends with the summary of the
    counters reached. *)
Theorem reader_failure_keeps_counts w cfg cls (header : list Str)
    (rows : list (list Str)) e (rest : list ReaderItem) st' :
  w_makedirs w (output_folder cfg) = Returns tt ->
  w_get_barcode_class w (code_format cfg) = Returns cls ->
  w_open_csv w (input_csv cfg)
  = Returns ((if skip_header cfg then [Yield header] else [])
             ++ map Yield rows ++ ReadFail e :: rest) ->
  isinstance e FileNotFoundError || isinstance e Exception = true ->
  run_rows cls cfg 0 (map Yield rows) (loop_start cls cfg header) = Ok tt st' ->
  generate_barcodes_from_csv w cfg
  = {| exit := Return PyNone;
       counters := Some (processed_count st', skipped_count st');
       out_log := log st' ++ [file_error_record cfg e;
                              (INFO, MsgSummary (processed_count st') (skipped_count st'))];
       out_written := written st' |}.
Proof.
  intros Hm Hc Ho He Hr. apply (generate_file_error w cfg Hm Hc); [|exact He].
  unfold read_csv, bind at 1. rewrite Ho. unfold call, ret at 1.
  revert Hr. unfold loop_start. destruct (skip_header cfg); intros Hr.
  - change ([Yield header] ++ ?l) with (Yield header :: l). cbv beta iota.
    unfold bind at 1. rewrite logging_logged. unfold bind.
    rewrite run_rows_app, Hr. reflexivity.
  - change ([] ++ ?l) with l. unfold bind. rewrite run_rows_app, Hr. reflexivity.
Qed.

(** X8. When the input file cannot be opened, for want of the file or for
    any other error, no row is processed: the error is logged, as a missing
    file for a FileNotFoundError and as a read error otherwise, and the run
    returns after a summary of zero and zero. *)
Theorem open_failure_reported w cfg cls e :
  w_makedirs w (output_folder cfg) = Returns tt ->
  w_get_barcode_class w (code_format cfg) = Returns cls ->
  w_open_csv w (input_csv cfg) = Raises e ->
  isinstance e FileNotFoundError || isinstance e Exception = true ->
  generate_barcodes_from_csv w cfg
  = {| exit := Return PyNone;
       counters := Some (0, 0)%Z;
       out_log := setup_log cls cfg ++ [file_error_record cfg e; (INFO, MsgSummary 0 0)];
       out_written := [] |}.
Proof.
  intros Hm Hc Ho He.
  apply (generate_file_error w cfg (s := initial_state cls cfg) Hm Hc); [|exact He].
  unfold read_csv, bind at 1. rewrite Ho. reflexivity.
Qed.

Lemma generate_written w cfg (path actual : Str) :
  In (path, actual) (out_written (generate_barcodes_from_csv w cfg)) ->
  written_for w cfg path.
Proof.
  assert (H1 : forall cls, w_get_barcode_class w (code_format cfg) = Returns cls ->
                           written_ok w cfg (initial_state cls cfg)).
  { intros cls _ p a H. destruct H. }
  assert (H2 : forall cls items k row s,
             w_get_barcode_class w (code_format cfg) = Returns cls ->
             w_open_csv w (input_csv cfg) = Returns items ->
             nth_error (data_rows cfg items) k = Some (Yield row) ->
             written_ok w cfg s ->
             written_ok w cfg (res_state (process_row cls cfg k row s))).
  { intros cls items k row s _ Ho Hk Ps.
    destruct (process_row_shape cls cfg k row s)
      as [(r & _ & _ & _ & ->)|[(f & a & Hf & Hne & Hv & ->)|(e & ->)]];
      simpl; try exact Ps.
    intros p a' H. simpl in H. apply in_app_or in H.
    destruct H as [H|[H|[]]]; [eapply Ps; eauto|].
    injection H as <- _. exists items, k, row, f.
    repeat (split; [assumption|]). reflexivity. }
  assert (H3 : forall r s, of_file_block r = true ->
                           written_ok w cfg s -> written_ok w cfg (logged r s)).
  { intros r s _ Ps. exact Ps. }
  destruct (generate_shape w cfg (written_ok w cfg) H1 H2 H3)
    as [(_ & N & _)|[(s & x & Ps & ->)|(s & Ps & ->)]].
  - rewrite N. intros [].
  - apply Ps.
  - apply Ps.
Qed.

Lemma passes_ean13 cfg (code : Str) :
  lower (code_format cfg) = lit "ean13" ->
  passes_validation cfg code = true ->
  str_isdigit code = true /\ length code = 12%nat.
Proof.
  intros F. unfold passes_validation, not_ean13. rewrite F, eqb_refl. cbn [andb].
  rewrite negb_true_iff, orb_false_iff, !negb_false_iff, Nat.eqb_eq. auto.
Qed.

(** X12. Every image written in a run was asked for a data row of the
    file, from the field in the target column, trimmed and not empty, under
    the safe name of that code and row; under the format "ean13" the code
    was made of digits and 12 long.  No run writes an image for a code that
    fails the validation, for the header, or for anything that is not in
    the file. *)
Theorem only_validated_codes_written w cfg (path actual : Str) :
  In (path, actual) (out_written (generate_barcodes_from_csv w cfg)) ->
  exists items k row field,
    w_open_csv w (input_csv cfg) = Returns items
    /\ nth_error (data_rows cfg items) k = Some (Yield row)
    /\ py_index row (col_index cfg) = Returns field
    /\ strip field <> []
    /\ path = save_path cfg
                (safe_filename (strip field) (row_number (skip_header cfg) k))
    /\ (lower (code_format cfg) = lit "ean13" ->
        str_isdigit (strip field) = true /\ length (strip field) = 12%nat).
Proof.
  intros H. destruct (generate_written w cfg path actual H)
    as (items & k & row & f & Ho & Hk & Hf & Hne & Hv & Hp).
  exists items, k, row, f.
  repeat (split; [assumption|]).
  intros F. apply (passes_ean13 cfg (strip f) F Hv).
Qed.

End MoreFileFacts.

(** ** The script *)

Section ScriptFacts.
Context {db : UnicodeDB}.
Import Script.

Lemma py_index_first (row : list Str) (field : Str) :
  py_index row 0 = Returns field -> nth_error row 0 = Some field.
Proof.
  unfold py_index. change (0 <? 0)%Z with false. cbv iota.
  destruct ((0 <=? 0) && (0 <? Z.of_nat (length row)))%Z; [|discriminate].
  change (Z.to_nat 0) with 0%nat.
  destruct (nth_error row 0) as [f|]; [|discriminate].
  intros E; injection E as ->. reflexivity.
Qed.

Lemma output_dir_no_dot : ~ In dot output_dir.
Proof.
  intros H. vm_compute in H.
  repeat (destruct H as [H|H]; [discriminate H|]). exact H.
Qed.

Lemma join_output_dir (safe : Str) :
  (forall c, In c safe -> keeps c = true) ->
  path_join output_dir safe = lit "wygenerowane_kody_kreskowe/" ++ safe.
Proof.
  intros H. unfold path_join. rewrite (plain_not_slash safe H). reflexivity.
Qed.

(** X14. The script as it is configured writes, whatever the file holds,
    only images named "wygenerowane_kody_kreskowe/" and the safe name of a
    code of 12 digits, which stands, trimmed, in the first column of a row
    after the header. *)
Theorem script_writes_codes (w : World (list (Str * Str))) (path actual : Str) :
  In (path, actual) (out_written (main w)) ->
  exists items k row field,
    w_open_csv w csv_file_path = Returns items
    /\ nth_error items (S k) = Some (Yield row)
    /\ nth_error row 0 = Some field
    /\ str_isdigit (strip field) = true
    /\ length (strip field) = 12%nat
    /\ path = lit "wygenerowane_kody_kreskowe/"
              ++ safe_filename (strip field) (Z.of_nat k + 2).
Proof.
  intros H. destruct (generate_written w main_cfg path actual H)
    as (items & k & row & f & Ho & Hk & Hf & Hne & Hv & Hp).
  exists items, k, row, f.
  destruct (passes_ean13 main_cfg (strip f) eq_refl Hv) as [D L].
  split; [exact Ho|]. split; [|split; [|split; [exact D|split; [exact L|]]]].
  - rewrite <- nth_error_tl. exact Hk.
  - apply py_index_first. exact Hf.
  - rewrite Hp.
    rewrite (save_path_in_folder main_cfg (strip f) _ output_dir_no_dot).
    apply join_output_dir. intros c. apply safe_filename_keeps.
Qed.

End ScriptFacts.

(** ** The further properties on the shop's file and on files that go wrong *)

Section MoreShopRuns.
Import Shop Cases.


Lemma no_row_error_witness :
  is_row_error (WARNING, MsgNotEan13 3 (lit "1234")) = false.
Proof.
  refine (proj2 (@no_row_error ascii_only Opts shop_world script_cfg _)
            (WARNING, MsgNotEan13 3 (lit "1234")) _).
  - cbn. lia.
  - vm_compute. do 7 right. left. reflexivity.
Defined.

Lemma negative_column_witness :
  process_row (db := ascii_only) ean13_class (with_column (-1) script_cfg) 0 [] blank
  = Ok tt (skipped_with
             (ERROR, MsgRowError 2 (mk_exn IndexError (lit "list index out of range")))
             blank).
Proof.
  refine (proj1 (@negative_column ascii_only Opts ean13_class
                   (with_column (-1) script_cfg) 0 [] blank _) _); reflexivity.
Defined.

Lemma other_formats_unvalidated_witness :
  process_row (db := ascii_only) code39_class (with_format (lit "code39") script_cfg) 0
    [lit " abc "] blank
  = Ok tt (skipped_with (ERROR, MsgCodeError (lit "abc") 2 illegal_character) blank).
Proof.
  refine (@other_formats_unvalidated ascii_only Opts code39_class
            (with_format (lit "code39") script_cfg) 0 [lit " abc "] (lit " abc ")
            blank _ _ _ _).
  - discriminate.
  - reflexivity.
  - reflexivity.
  - discriminate.
Defined.

Lemma plain_codes_keep_apart_witness :
  save_path (db := ascii_only) script_cfg
    (safe_filename (db := ascii_only) (lit "590-12") 2)
  = path_join (output_folder script_cfg) (lit "590-12").
Proof.
  refine (proj1 (@plain_codes_keep_apart ascii_only Opts script_cfg
                   (lit "590-12") (lit "590_12") 2 3 _ _ _ _ _)).
  - intros H. vm_compute in H.
    repeat (destruct H as [H|H]; [discriminate H|]). exact H.
  - discriminate.
  - discriminate.
  - intros c H. vm_compute in H.
    repeat (destruct H as [H|H]; [subst c; reflexivity|]). destruct H.
  - intros c H. vm_compute in H.
    repeat (destruct H as [H|H]; [subst c; reflexivity|]). destruct H.
Defined.


Lemma svg_test_redundant_witness :
  image_format_unknown (db := ascii_only) (lit "svg")
  = negb (existsb (PyStr.eqb (upper (db := ascii_only) (lit "svg")))
            (valid_image_formats)).
Proof.
  refine (@svg_test_redundant ascii_only (lit "svg") _). reflexivity.
Defined.

Lemma counters_match_outputs_witness :
  1%Z = Z.of_nat (length (out_written
                            (generate_barcodes_from_csv (db := ascii_only)
                               shop_world script_cfg)))
  /\ 1%Z = Z.of_nat (length (filter is_generated
                               (out_log (generate_barcodes_from_csv (db := ascii_only)
                                           shop_world script_cfg))))
  /\ 2%Z = Z.of_nat (length (filter reports_row
                               (out_log (generate_barcodes_from_csv (db := ascii_only)
                                           shop_world script_cfg)))).
Proof.
  refine (@counters_match_outputs ascii_only Opts shop_world script_cfg 1 2 _).
  reflexivity.
Defined.

Lemma summary_is_last_and_true_witness :
  counters (generate_barcodes_from_csv (db := ascii_only) shop_world script_cfg)
  = Some (1, 2)%Z.
Proof.
  refine (proj1 (@summary_is_last_and_true ascii_only Opts shop_world script_cfg
                   INFO 1 2 _)).
  vm_compute. do 9 right. left. reflexivity.
Defined.

Lemma reader_failure_keeps_counts_witness :
  counters (generate_barcodes_from_csv (db := ascii_only) broken_world script_cfg)
  = Some (1, 0)%Z
  /\ length (out_written (generate_barcodes_from_csv (db := ascii_only)
                            broken_world script_cfg)) = 1%nat.
Proof.
  rewrite (@reader_failure_keeps_counts ascii_only Opts broken_world script_cfg
             ean13_class [lit "code"] [[lit "123456789012"]] decode_error
             [Yield [lit "999999999999"]] _
             eq_refl eq_refl eq_refl eq_refl eq_refl).
  split; reflexivity.
Defined.

Lemma only_unexpected_exceptions_escape_witness :
  (w_makedirs null_world (output_folder script_cfg) = Raises null_byte
   /\ isinstance null_byte OSError = false)
  \/ (w_get_barcode_class null_world (code_format script_cfg) = Raises null_byte
      /\ isinstance null_byte BarcodeNotFoundError = false)
  \/ (isinstance null_byte Exception = false
      /\ isinstance null_byte FileNotFoundError = false
      /\ exists u cls, w_makedirs null_world (output_folder script_cfg) = Returns u
                       /\ w_get_barcode_class null_world (code_format script_cfg)
                          = Returns cls).
Proof.
  refine (@only_unexpected_exceptions_escape ascii_only Opts null_world script_cfg
            null_byte _).
  reflexivity.
Defined.

Lemma open_failure_reported_witness :
  generate_barcodes_from_csv (db := ascii_only) locked_world script_cfg
  = {| exit := Return PyNone;
       counters := Some (0, 0)%Z;
       out_log := setup_log (db := ascii_only) ean13_class script_cfg
                  ++ [(ERROR, MsgCsvReadError permission_denied);
                      (INFO, MsgSummary 0 0)];
       out_written := [] |}.
Proof.
  refine (@open_failure_reported ascii_only Opts locked_world script_cfg ean13_class
            permission_denied _ _ _ _); reflexivity.
Defined.

Lemma only_validated_codes_written_witness :
  exists items k row field,
    w_open_csv shop_world (input_csv script_cfg) = Returns items
    /\ nth_error (data_rows script_cfg items) k = Some (Yield row)
    /\ py_index row (col_index script_cfg) = Returns field
    /\ strip (db := ascii_only) field <> []
    /\ lit "wygenerowane_kody_kreskowe/123456789012"
       = save_path (db := ascii_only) script_cfg
           (safe_filename (db := ascii_only) (strip (db := ascii_only) field)
              (row_number (skip_header script_cfg) k))
    /\ (lower (db := ascii_only) (code_format script_cfg) = lit "ean13" ->
        str_isdigit (db := ascii_only) (strip (db := ascii_only) field) = true
        /\ length (strip (db := ascii_only) field) = 12%nat).
Proof.
  refine (@only_validated_codes_written ascii_only Opts shop_world script_cfg
            (lit "wygenerowane_kody_kreskowe/123456789012")
            (lit "wygenerowane_kody_kreskowe/123456789012.png") _).
  vm_compute. left. reflexivity.
Defined.

Lemma script_writes_codes_witness :
  exists items k row field,
    w_open_csv shop_world Script.csv_file_path = Returns items
    /\ nth_error items (S k) = Some (Yield row)
    /\ nth_error row 0 = Some field
    /\ str_isdigit (db := ascii_only) (strip (db := ascii_only) field) = true
    /\ length (strip (db := ascii_only) field) = 12%nat
    /\ lit "wygenerowane_kody_kreskowe/123456789012"
       = lit "wygenerowane_kody_kreskowe/"
         ++ safe_filename (db := ascii_only) (strip (db := ascii_only) field)
              (Z.of_nat k + 2).
Proof.
  refine (@script_writes_codes ascii_only shop_world
            (lit "wygenerowane_kody_kreskowe/123456789012")
            (lit "wygenerowane_kody_kreskowe/123456789012.png") _).
  vm_compute. left. reflexivity.
Defined.

End MoreShopRuns.

(** ** Codes that share a safe name *)

Section Collisions.
Context {db : UnicodeDB}.



End Collisions.

